(** * Qubes application menu: widgets and application object

    A shallow embedding of [qubes_menu/custom_widgets.py] and of the
    life-cycle part of [qubes_menu/appmenu.py], together with the properties
    the specification states about them.

    Conventions of the embedding:
    - a Python object is a record of its attributes; a method is a function
      from the state before the call to the state after it;
    - a call that may raise returns a [result];
    - a [Gtk.StyleContext] is the finite set of its class names;
    - the [handlers] dictionary is an association list in insertion order,
      the order in which [initialize_state] walks it;
    - an object shared between parts of the program (the entry of a row, the
      list a row is packed in, the managers handed to the pages) is one
      component of the state, or one cell of a heap, that all of them reach;
    - code of the toolkit (Gtk, asyncio) is modelled by the documented effect
      of the calls the sources make, nothing more; sizes in pixels and
      colours are left to the environment. *)

From stdpp Require Import gmap strings list.

#[local] Set Warnings "-clear-no-such-hyp".

Open Scope Z_scope.

(** ** Exceptions and results *)

Inductive exn : Type :=
| AttributeError (attr : string)
| KeyError (key : string)
| AssertionError
| ConnectionLost (msg : string).

Inductive result (A : Type) : Type :=
| Ok (a : A)
| Raise (e : exn).

Arguments Ok {A} a.
Arguments Raise {A} e.

#[global] Instance result_ret : MRet result := λ A a, Ok a.

#[global] Instance result_bind : MBind result :=
  λ A B f m, match m with Ok a => f a | Raise e => Raise e end.

Definition succeeds {A} (r : result A) : Prop := ∃ a, r = Ok a.

(** ** The icon loader

    [utils.load_icon(icon_name, size, pixel_size)] is imported by the widget
    module; it returns a pixbuf and falls back to a generic icon instead of
    raising.  The widgets only store what it returns, so the loader is an
    interface of the development. *)

Inductive IconSize : Type := LARGE_TOOLBAR.

Class IconLoader : Type := {
  Pixbuf : Type;
  load_icon : string → option IconSize → option Z → Pixbuf
}.

(** ** [SelfAwareMenu] *)

Module SelfAwareMenu.

(** The static handlers of the class. *)
Inductive handler : Type := add_to_open_h | remove_from_open_h.

(** The class object: its only attribute is the counter. *)
Record cls : Type := { OPEN_MENUS : Z }.

Definition class_body : cls := {| OPEN_MENUS := 0 |}.

(** An instance: style classes and signal connections, in connection order. *)
Record t : Type := {
  menu_id : nat;
  style_context : gset string;
  connections : list (string * handler)
}.

Definition __init__ (id : nat) : t :=
  {| menu_id := id;
     style_context := {[ "right_menu" ]};
     connections := [("realize", add_to_open_h); ("deactivate", remove_from_open_h)] |}.

Definition _add_to_open (c : cls) : cls := {| OPEN_MENUS := OPEN_MENUS c + 1 |}.

Definition _remove_from_open (c : cls) : cls := {| OPEN_MENUS := OPEN_MENUS c - 1 |}.

Definition call (h : handler) (c : cls) : cls :=
  match h with
  | add_to_open_h => _add_to_open c
  | remove_from_open_h => _remove_from_open c
  end.

(** Emitting signal [name] on menu [m] runs the handlers connected under that
    name, in connection order. *)
Definition emit (name : string) (m : t) (c : cls) : cls :=
  foldl (λ c' '(n, h), if String.eqb n name then call h c' else c') c (connections m).

(** The two signals a popup menu receives while the application runs. *)
Inductive event : Type := realize (id : nat) | deactivate (id : nat).

Definition step (c : cls) (e : event) : cls :=
  match e with
  | realize id => emit "realize" (__init__ id) c
  | deactivate id => emit "deactivate" (__init__ id) c
  end.

Definition run (tr : list event) (c : cls) : cls := foldl step c tr.

(** The menus that are open after a trace: realized and not deactivated
    since. *)
Definition open_step (s : gset nat) (e : event) : gset nat :=
  match e with
  | realize id => {[ id ]} ∪ s
  | deactivate id => s ∖ {[ id ]}
  end.

Definition open_menus (tr : list event) : gset nat := foldl open_step ∅ tr.

(** A trace is well formed when a menu is realized only while it is not open
    and deactivated only while it is open: each menu is deactivated at most
    once after being realized. *)
Fixpoint well_formed_from (s : gset nat) (tr : list event) : bool :=
  match tr with
  | [] => true
  | realize id :: tr' =>
      bool_decide (id ∉ s) && well_formed_from ({[ id ]} ∪ s) tr'
  | deactivate id :: tr' =>
      bool_decide (id ∈ s) && well_formed_from (s ∖ {[ id ]}) tr'
  end.

Definition well_formed (tr : list event) : bool := well_formed_from ∅ tr.

(** How many events of each kind a trace holds. *)
Definition is_realize (e : event) : bool :=
  match e with realize _ => true | deactivate _ => false end.

Definition realizes (tr : list event) : nat :=
  length (filter (λ e, is_realize e = true) tr).

Definition deactivations (tr : list event) : nat :=
  length (filter (λ e, is_realize e = false) tr).

End SelfAwareMenu.

(** ** The toolkit objects the widgets are built from *)

Module Gtk.

Section WithLoader.
Context `{IconLoader}.

Inductive Align : Type := FILL | START.

(** [Gtk.Image]: an image is empty until a pixbuf is set. *)
Record Image : Type := {
  pixbuf : option Pixbuf;
  img_style : gset string;
  tooltip_text : option string;
  valign : Align;
  no_show_all : bool;
  img_visible : bool
}.

Definition Image_new : Image :=
  {| pixbuf := None; img_style := ∅; tooltip_text := None; valign := FILL;
     no_show_all := false; img_visible := false |}.

Definition set_from_pixbuf (p : Pixbuf) (i : Image) : Image :=
  {| pixbuf := Some p; img_style := img_style i; tooltip_text := tooltip_text i;
     valign := valign i; no_show_all := no_show_all i; img_visible := img_visible i |}.

Definition new_from_pixbuf (p : Pixbuf) : Image := set_from_pixbuf p Image_new.

Definition img_add_class (c : string) (i : Image) : Image :=
  {| pixbuf := pixbuf i; img_style := {[ c ]} ∪ img_style i; tooltip_text := tooltip_text i;
     valign := valign i; no_show_all := no_show_all i; img_visible := img_visible i |}.

Definition set_tooltip_text (s : string) (i : Image) : Image :=
  {| pixbuf := pixbuf i; img_style := img_style i; tooltip_text := Some s;
     valign := valign i; no_show_all := no_show_all i; img_visible := img_visible i |}.

Definition set_valign (a : Align) (i : Image) : Image :=
  {| pixbuf := pixbuf i; img_style := img_style i; tooltip_text := tooltip_text i;
     valign := a; no_show_all := no_show_all i; img_visible := img_visible i |}.

Definition set_no_show_all (b : bool) (i : Image) : Image :=
  {| pixbuf := pixbuf i; img_style := img_style i; tooltip_text := tooltip_text i;
     valign := valign i; no_show_all := b; img_visible := img_visible i |}.

Definition img_set_visible (b : bool) (i : Image) : Image :=
  {| pixbuf := pixbuf i; img_style := img_style i; tooltip_text := tooltip_text i;
     valign := valign i; no_show_all := no_show_all i; img_visible := b |}.

(** [show_all] on a container shows every child not marked [no_show_all]. *)
Definition img_show_all (i : Image) : Image :=
  if no_show_all i then i else img_set_visible true i.

End WithLoader.

(** [Gtk.ListBox] in its default single-selection mode, as far as a row
    drives it: the selected row (by identity), how often sorting and
    filtering were invalidated, and the [select_row] calls received. *)
Record ListBox : Type := {
  selected_row : option nat;
  sort_invalidations : nat;
  filter_invalidations : nat;
  select_row_calls : list (option nat)
}.

Definition invalidate_sort (lb : ListBox) : ListBox :=
  {| selected_row := selected_row lb;
     sort_invalidations := S (sort_invalidations lb);
     filter_invalidations := filter_invalidations lb;
     select_row_calls := select_row_calls lb |}.

Definition invalidate_filter (lb : ListBox) : ListBox :=
  {| selected_row := selected_row lb;
     sort_invalidations := sort_invalidations lb;
     filter_invalidations := S (filter_invalidations lb);
     select_row_calls := select_row_calls lb |}.

(** [select_row(None)] clears the selection, [select_row(row)] selects
    [row]. *)
Definition select_row (r : option nat) (lb : ListBox) : ListBox :=
  {| selected_row := r;
     sort_invalidations := sort_invalidations lb;
     filter_invalidations := filter_invalidations lb;
     select_row_calls := select_row_calls lb ++ [r] |}.

End Gtk.

(** ** [HoverEventBox] *)

Module HoverEventBox.

Record t : Type := {
  mouse : bool;
  focus_widget : nat;
  event_mask : list string;
  connected : list (string * string)
}.

Definition __init__ (focus_widget : nat) : t :=
  {| mouse := false;
     focus_widget := focus_widget;
     event_mask := ["ENTER_NOTIFY_MASK"; "LEAVE_NOTIFY_MASK"];
     connected := [("enter-notify-event", "_enter_event");
                   ("leave-notify-event", "_leave_event")] |}.

(** The box together with what it acts on: the timeouts of the main loop
    that are armed with [self._select_me], and the widgets that have grabbed
    the focus, in order. *)
Record World : Type := {
  box : t;
  timeouts : nat;
  grabbed : list nat
}.

Definition set_mouse (b : bool) (x : t) : t :=
  {| mouse := b; focus_widget := focus_widget x;
     event_mask := event_mask x; connected := connected x |}.

(** [GLib.timeout_add(constants.HOVER_TIMEOUT, self._select_me)] arms one
    more timeout. *)
Definition _enter_event (w : World) : World :=
  {| box := set_mouse true (box w); timeouts := S (timeouts w); grabbed := grabbed w |}.

Definition _leave_event (w : World) : World :=
  {| box := set_mouse false (box w); timeouts := timeouts w; grabbed := grabbed w |}.

(** [_select_me] with the value it returns. *)
Definition _select_me (w : World) : World * bool :=
  if negb (mouse (box w)) then (w, false)
  else
    ({| box := box w; timeouts := timeouts w;
        grabbed := grabbed w ++ [focus_widget (box w)] |}, true).

(** An armed timeout expires: the main loop calls the callback and removes
    the timeout when the callback returns [False]; otherwise the timeout stays
    armed. *)
Definition timeout_expires (w : World) : World :=
  match timeouts w with
  | O => w
  | S n =>
      let '(w', again) := _select_me w in
      if again then w'
      else {| box := box w'; timeouts := n; grabbed := grabbed w' |}
  end.

Inductive event : Type := enter | leave | timeout.

Definition step (w : World) (e : event) : World :=
  match e with
  | enter => _enter_event w
  | leave => _leave_event w
  | timeout => timeout_expires w
  end.

Definition run (tr : list event) (w : World) : World := foldl step w tr.

#[global] Instance event_eq_dec : EqDecision event.
Proof. solve_decision. Defined.

Definition count_of (e : event) (tr : list event) : nat :=
  length (filter (λ e', e' = e) tr).

End HoverEventBox.

(** ** [NetworkIndicator] *)

Module NetworkIndicator.

Section WithLoader.
Context `{IconLoader}.

(** The box: its own visibility, the two images, the children packed from the
    end, and the style classes.  The size requests of the images only affect
    geometry and are left out. *)
Record t : Type := {
  visible : bool;
  icon_size : IconSize;
  network_on : Gtk.Image;
  network_off : Gtk.Image;
  packed_end : list string;
  style_context : gset string
}.

Definition __init__ : t :=
  let size := LARGE_TOOLBAR in
  let on := Gtk.new_from_pixbuf (load_icon "qappmenu-networking-yes" (Some size) None) in
  let off := Gtk.new_from_pixbuf (load_icon "qappmenu-networking-no" (Some size) None) in
  let on := Gtk.set_tooltip_text "Qube is networked" on in
  let off := Gtk.set_tooltip_text "Qube is not networked" off in
  let on := Gtk.set_no_show_all true on in
  let off := Gtk.set_no_show_all true off in
  {| visible := false;
     icon_size := size;
     network_on := on;
     network_off := off;
     packed_end := ["network_on"; "network_off"];
     style_context := {[ "network_indicator" ]} |}.

Definition set_network_state (state : bool) (self : t) : t :=
  {| visible := true;
     icon_size := icon_size self;
     network_on := Gtk.img_set_visible state (network_on self);
     network_off := Gtk.img_set_visible (negb state) (network_off self);
     packed_end := packed_end self;
     style_context := style_context self |}.

(** [show_all()] reaching the box, from the box itself or from a container
    it is packed in: the box is shown, and so is every child that is not
    marked [no_show_all]. *)
Definition show_all (self : t) : t :=
  {| visible := true;
     icon_size := icon_size self;
     network_on := Gtk.img_show_all (network_on self);
     network_off := Gtk.img_show_all (network_off self);
     packed_end := packed_end self;
     style_context := style_context self |}.

(** The calls an indicator receives during its life. *)
Inductive call : Type :=
| call_show_all
| call_set_network_state (state : bool).

Definition receive (self : t) (c : call) : t :=
  match c with
  | call_show_all => show_all self
  | call_set_network_state state => set_network_state state self
  end.

Definition life (cs : list call) : t := foldl receive __init__ cs.

(** The state given by the latest [set_network_state] call, if there was
    one. *)
Definition latest_state (cs : list call) : option bool :=
  foldl (λ o c, match c with call_set_network_state b => Some b | call_show_all => o end)
    None cs.

End WithLoader.

End NetworkIndicator.

(** ** [VMEntry] *)

(** Modelled from the spec: [VMEntry] is declared in [vm_manager.py], which is
    not among the sources; the record has the attributes of section 3 of the
    specification, with the types the widget code uses them at
    ([power_state] is compared with the string ['Running'], [parent_vm] is
    tested for truth). *)
Record VMEntry : Type := {
  vm_name : string;
  power_state : string;
  parent_vm : option string;
  is_dispvm_template : bool;
  has_network : bool;
  vm_icon_name : string;
  sort_name : string
}.

(** Python truth of an optional name: [None] and the empty string are
    false. *)
Definition truthy (o : option string) : bool :=
  match o with
  | None => false
  | Some s => negb (String.eqb s "")
  end.

(** ** [VMRow], [SearchVMRow] and [AnyVMRow] *)

Module VMRow.

Section WithLoader.
Context `{IconLoader}.

(** The class of a row object decides which [update_contents] a call on
    [self] reaches. *)
Inductive row_class : Type := VMRow_cls | SearchVMRow_cls.

(** The row widget.  [main_box] lists the packed children by attribute name,
    in packing order; [dispvm_icon] exists only on rows built for an entry
    with a parent. *)
Record t : Type := {
  cls : row_class;
  row_id : nat;
  mouse : bool;
  row_vm_name : string;
  style_context : gset string;
  icon_img : Gtk.Image;
  dispvm_icon : option Gtk.Image;
  label : string;
  label_visible : bool;
  main_box : list string;
  main_box_visible : bool
}.

(** What a method of the row can reach: the entry object it shares with the
    VM manager, the widget itself, and the list box it is packed in
    ([get_parent()], [None] while unparented). *)
Record World : Type := {
  vm_entry : VMEntry;
  row : t;
  parent : option Gtk.ListBox
}.

Definition with_row (f : t → t) (w : World) : World :=
  {| vm_entry := vm_entry w; row := f (row w); parent := parent w |}.

Definition set_style (s : gset string) (r : t) : t :=
  {| cls := cls r; row_id := row_id r; mouse := mouse r; row_vm_name := row_vm_name r;
     style_context := s; icon_img := icon_img r; dispvm_icon := dispvm_icon r;
     label := label r; label_visible := label_visible r;
     main_box := main_box r; main_box_visible := main_box_visible r |}.

Definition add_class (c : string) (r : t) : t := set_style ({[ c ]} ∪ style_context r) r.

Definition remove_class (c : string) (r : t) : t := set_style (style_context r ∖ {[ c ]}) r.

Definition set_icon_img (i : Gtk.Image) (r : t) : t :=
  {| cls := cls r; row_id := row_id r; mouse := mouse r; row_vm_name := row_vm_name r;
     style_context := style_context r; icon_img := i; dispvm_icon := dispvm_icon r;
     label := label r; label_visible := label_visible r;
     main_box := main_box r; main_box_visible := main_box_visible r |}.

Definition set_dispvm_icon (i : Gtk.Image) (r : t) : t :=
  {| cls := cls r; row_id := row_id r; mouse := mouse r; row_vm_name := row_vm_name r;
     style_context := style_context r; icon_img := icon_img r; dispvm_icon := Some i;
     label := label r; label_visible := label_visible r;
     main_box := main_box r; main_box_visible := main_box_visible r |}.

Definition set_label (s : string) (r : t) : t :=
  {| cls := cls r; row_id := row_id r; mouse := mouse r; row_vm_name := row_vm_name r;
     style_context := style_context r; icon_img := icon_img r; dispvm_icon := dispvm_icon r;
     label := s; label_visible := label_visible r;
     main_box := main_box r; main_box_visible := main_box_visible r |}.

Definition pack_start (child : string) (r : t) : t :=
  {| cls := cls r; row_id := row_id r; mouse := mouse r; row_vm_name := row_vm_name r;
     style_context := style_context r; icon_img := icon_img r; dispvm_icon := dispvm_icon r;
     label := label r; label_visible := label_visible r;
     main_box := main_box r ++ [child]; main_box_visible := main_box_visible r |}.

(** [self.main_box.show_all()]: the box and the children packed in it. *)
Definition main_box_show_all (r : t) : t :=
  let shown c := bool_decide (c ∈ main_box r) in
  {| cls := cls r; row_id := row_id r; mouse := mouse r; row_vm_name := row_vm_name r;
     style_context := style_context r;
     icon_img := if shown "icon_img" then Gtk.img_show_all (icon_img r) else icon_img r;
     dispvm_icon := if shown "dispvm_icon" then Gtk.img_show_all <$> dispvm_icon r
                    else dispvm_icon r;
     label := label r;
     label_visible := if shown "label" then true else label_visible r;
     main_box := main_box r; main_box_visible := true |}.

(** [HoverListBox.__init__]: a fresh row with an empty horizontal box. *)
Definition HoverListBox__init__ (c : row_class) (id : nat) : t :=
  {| cls := c; row_id := id; mouse := false; row_vm_name := "";
     style_context := ∅; icon_img := Gtk.Image_new; dispvm_icon := None;
     label := ""; label_visible := false;
     main_box := []; main_box_visible := false |}.

Definition get_parent (w : World) : option Gtk.ListBox := parent w.

(** A method call on the result of [get_parent()]; on [None] the attribute
    lookup fails. *)
Definition parent_call (meth : string) (f : Gtk.ListBox → Gtk.ListBox) (w : World)
  : result World :=
  match get_parent w with
  | Some lb => Ok {| vm_entry := vm_entry w; row := row w; parent := Some (f lb) |}
  | None => Raise (AttributeError meth)
  end.

(** [is_selected()]: the row is the selected row of its list. *)
Definition is_selected (w : World) : bool :=
  match get_parent w with
  | Some lb => bool_decide (Gtk.selected_row lb = Some (row_id (row w)))
  | None => false
  end.

Definition update_style (update_power_state : bool) (w : World) : World :=
  let w :=
    if is_dispvm_template (vm_entry w) then
      with_row (add_class "dvm_template_entry") w
    else if truthy (parent_vm (vm_entry w)) then
      with_row (add_class "dispvm_entry") w
    else
      with_row (remove_class "dvm_template_entry")
        (with_row (remove_class "dispvm_entry") w) in
  if update_power_state then
    if String.eqb (power_state (vm_entry w)) "Running" then
      with_row (add_class "running_vm") w
    else
      with_row (remove_class "running_vm") w
  else w.

(** [VMRow.update_contents], the method of the base class. *)
Definition update_contents
  (update_power_state update_label update_has_network update_type : bool)
  (w : World) : result World :=
  let w :=
    if update_label then
      let icon_vm := load_icon (vm_icon_name (vm_entry w)) None None in
      with_row (λ r, set_icon_img (Gtk.set_from_pixbuf icon_vm (icon_img r)) r) w
    else w in
  w ← (if update_type || update_power_state then
         let w := update_style update_power_state w in
         if get_parent w is Some _ then
           w ← parent_call "invalidate_sort" Gtk.invalidate_sort w;
           w ← parent_call "invalidate_filter" Gtk.invalidate_filter w;
           parent_call "select_row" (Gtk.select_row None) w
         else Ok w
       else Ok w);
  w ← (if update_has_network then
         if is_selected w && (if get_parent w is Some _ then true else false) then
           w ← parent_call "select_row" (Gtk.select_row None) w;
           parent_call "select_row" (Gtk.select_row (Some (row_id (row w)))) w
         else Ok w
       else Ok w);
  Ok (with_row main_box_show_all w).

(** [SearchVMRow.update_contents]: search rows do not show power state. *)
Definition SearchVMRow_update_contents
  (update_power_state update_label update_has_network update_type : bool)
  (w : World) : result World :=
  update_contents false update_label false update_type w.

(** [self.update_contents(...)]: the call goes to the method of the row's
    class. *)
Definition self_update_contents
  (update_power_state update_label update_has_network update_type : bool)
  (w : World) : result World :=
  match cls (row w) with
  | VMRow_cls =>
      update_contents update_power_state update_label update_has_network update_type w
  | SearchVMRow_cls =>
      SearchVMRow_update_contents
        update_power_state update_label update_has_network update_type w
  end.

(** [VMRow.__init__], inherited by [SearchVMRow]. *)
Definition __init__ (c : row_class) (id : nat) (e : VMEntry) : result World :=
  let r := HoverListBox__init__ c id in
  let r :=
    {| cls := cls r; row_id := row_id r; mouse := mouse r; row_vm_name := vm_name e;
       style_context := style_context r; icon_img := icon_img r;
       dispvm_icon := dispvm_icon r; label := label r; label_visible := label_visible r;
       main_box := main_box r; main_box_visible := main_box_visible r |} in
  let r := add_class "vm_entry" r in
  let r := set_icon_img Gtk.Image_new r in
  let r :=
    if truthy (parent_vm e) then
      let dispvm_icon := Gtk.Image_new in
      let dispvm_icon_img := load_icon "qappmenu-dispvm-child" None (Some 15) in
      let dispvm_icon := Gtk.set_from_pixbuf dispvm_icon_img dispvm_icon in
      let dispvm_icon := Gtk.img_add_class "dispvm_icon" dispvm_icon in
      let dispvm_icon := Gtk.set_valign Gtk.START dispvm_icon in
      pack_start "dispvm_icon" (set_dispvm_icon dispvm_icon r)
    else r in
  let r := pack_start "icon_img" r in
  let r := set_label (vm_name e) r in
  let r := pack_start "label" r in
  self_update_contents true true true true
    {| vm_entry := e; row := r; parent := None |}.

(** [HoverListBox._on_focus], the handler of [focus-in-event]; [mapped] is
    what [get_mapped()] answers.  The boolean tells whether [activate()] was
    called. *)
Definition _on_focus (mapped : bool) (w : World) : result (World * bool) :=
  if mapped then
    w ← parent_call "select_row" (Gtk.select_row (Some (row_id (row w)))) w;
    Ok (w, true)
  else Ok (w, false).

(** [sort_order]: the sort key of the entry. *)
Definition sort_order (w : World) : string := sort_name (vm_entry w).

(** What happens to a row during its life: the VM manager assigns new
    attribute values to the entry the row shares with it, or [update_style]
    is called on the row. *)
Inductive action : Type :=
| entry_changed (e : VMEntry)
| call_update_style (update_power_state : bool).

Definition act (w : World) (a : action) : World :=
  match a with
  | entry_changed e => {| vm_entry := e; row := row w; parent := parent w |}
  | call_update_style b => update_style b w
  end.

Definition acts (tr : list action) (w : World) : World := foldl act w tr.

(** The style classes of a row match the variant of its entry: template,
    child of a template, or neither. *)
Definition style_matches_variant (w : World) : Prop :=
  let sc := style_context (row w) in
  let e := vm_entry w in
  ("dvm_template_entry" ∈ sc ↔ is_dispvm_template e = true) ∧
  ("dispvm_entry" ∈ sc ↔ (is_dispvm_template e = false ∧ truthy (parent_vm e) = true)) ∧
  ¬ ("dvm_template_entry" ∈ sc ∧ "dispvm_entry" ∈ sc) ∧
  (is_dispvm_template e = false → truthy (parent_vm e) = false →
   ("dvm_template_entry" ∉ sc) ∧ ("dispvm_entry" ∉ sc)).

(** What of a list box a row can change by invalidating and selecting. *)
Definition list_state (lb : Gtk.ListBox) : option nat * nat * nat :=
  (Gtk.selected_row lb, Gtk.sort_invalidations lb, Gtk.filter_invalidations lb).

(** The [select_row] calls made on the parent between two states, none of
    which selects a row. *)
Definition no_row_selected_between (w w' : World) : Prop :=
  match parent w, parent w' with
  | Some lb, Some lb' =>
      ∃ l, Gtk.select_row_calls lb' = Gtk.select_row_calls lb ++ l ∧ Forall (λ r, r = None) l
  | None, None => True
  | _, _ => False
  end.

(** The entries a history assigns. *)
Definition assigned (tr : list action) : list VMEntry :=
  omap (λ a, match a with entry_changed e => Some e | _ => None end) tr.

End WithLoader.

End VMRow.

Module AnyVMRow.

Section WithLoader.
Context `{IconLoader}.

Record t : Type := {
  row_id : nat;
  vm_name : option string;
  sort_order : string;
  style_context : gset string;
  icon_img : Gtk.Image;
  label_markup : string;
  main_box : list string;
  visible : bool
}.

Definition __init__ (id : nat) : t :=
  let icon_img := Gtk.Image_new in
  let icon_vm := load_icon "qubes-logo-icon" None None in
  let icon_img := Gtk.set_from_pixbuf icon_vm icon_img in
  {| row_id := id;
     vm_name := None;
     sort_order := "";
     style_context := {[ "vm_entry" ]};
     icon_img := Gtk.img_show_all icon_img;
     label_markup := "<b>Any qube</b>";
     main_box := ["icon_img"; "label"];
     visible := true |}.

End WithLoader.

End AnyVMRow.

(** ** asyncio, as far as [do_activate] uses it *)

Module asyncio.

(** How a future stands: not done, done with a result, or done with an
    exception stored in it. *)
Inductive future_state : Type :=
| PENDING
| FINISHED
| FAILED (e : exn).

(** A task made by [ensure_future]: the coroutine it runs and its state. *)
Record Task : Type := { coro : string; state : future_state }.

Definition ensure_future (coroutine : string) (s : future_state) : Task :=
  {| coro := coroutine; state := s |}.

Definition done (t : Task) : bool :=
  match state t with PENDING => false | _ => true end.

Definition raised (t : Task) : bool :=
  match state t with FAILED _ => true | _ => false end.

(** [exception()] of a task: the exception stored in it, if any. *)
Definition exception (t : Task) : option exn :=
  match state t with FAILED e => Some e | _ => None end.

(** [asyncio.wait(fs, return_when=FIRST_EXCEPTION)]: completes as soon as a
    future has finished by raising, or when all are done; its value is the
    pair [(done, pending)].  It does not raise what a future raised: the
    exception stays stored in the future.  [None]: the wait is not over. *)
Definition wait_FIRST_EXCEPTION (fs : list Task) : option (list Task * list Task) :=
  if existsb raised fs || forallb done fs then
    Some (filter (λ t, done t = true) fs, filter (λ t, done t = false) fs)
  else None.

End asyncio.

(** ** [AppMenu] *)

Module AppMenu.

(** Objects the application constructs; the arguments are the references
    handed to the constructor, in the order of the call. *)
Inductive obj : Type :=
| Builder
| DesktopFileManager (qapp : nat)
| VMManager (qapp dispatcher : nat)
| SearchPage (vm_manager builder desktop_file_manager : nat)
| AppPage (vm_manager builder desktop_file_manager : nat)
| FavoritesPage (qapp builder desktop_file_manager dispatcher vm_manager : nat)
| SettingsPage (qapp builder desktop_file_manager dispatcher : nat).

(** The heap: a reference is the position of the object; construction
    appends. *)
Definition heap : Type := list obj.

Definition new (o : obj) (h : heap) : nat * heap := (length h, h ++ [o]).

(** Calls on collaborators whose code is elsewhere, in the order made. *)
Inductive effect : Type :=
| initialize_page (page : nat)
| show_all
| hide
| present
| resize (width height : Z)
| set_current_page (page_num : Z).

Record Window : Type := {
  win_visible : bool;
  win_events : list string;
  win_connected : list (string * string)
}.

Record Notebook : Type := {
  current_page : option Z;
  nb_connected : list (string * string)
}.

(** What the process finds around it: the object names [qubes-menu.glade]
    defines, the highlight tag the style sheet yields, the geometry Gtk
    reports, and how the call [dispatcher.listen_for_events()] ends
    ([PENDING]: it does not). *)
Record Env : Type := {
  glade : gset string;
  theme_highlight_tag : string;
  allocated_width : Z;
  allocated_height : Z;
  screen_height : Z;
  listener : asyncio.future_state
}.

Record t : Type := {
  qapp : nat;
  dispatcher : nat;
  primary : bool;
  keep_visible : bool;
  initial_page : Z;
  start_in_background : bool;
  builder : option nat;
  main_window : option Window;
  main_notebook : option Notebook;
  fav_app_list : option string;
  sys_tools_list : option string;
  desktop_file_manager : option nat;
  vm_manager : option nat;
  handlers : list (string * nat);
  power_button : option (list (string * string));
  highlight_tag : option string;
  tasks : list asyncio.Task
}.

(** The state of the process: the application object, the objects
    constructed so far, the class attribute of [SelfAwareMenu], and the calls
    made on collaborators. *)
Record World : Type := {
  app : t;
  objects : heap;
  menus : SelfAwareMenu.cls;
  log : list effect
}.

Definition __init__ (qapp dispatcher : nat) : t :=
  {| qapp := qapp; dispatcher := dispatcher;
     primary := false; keep_visible := false; initial_page := 1;
     start_in_background := false;
     builder := None; main_window := None; main_notebook := None;
     fav_app_list := None; sys_tools_list := None;
     desktop_file_manager := None; vm_manager := None;
     handlers := [];
     power_button := None; highlight_tag := None; tasks := [] |}.

(** The process before the first activation. *)
Definition start (qapp dispatcher : nat) : World :=
  {| app := __init__ qapp dispatcher; objects := [];
     menus := SelfAwareMenu.class_body; log := [] |}.

(** [self.handlers[key]] *)
Definition getitem (d : list (string * nat)) (key : string) : result nat :=
  match list_find (λ kv, kv.1 = key) d with
  | Some (_, (_, v)) => Ok v
  | None => Raise (KeyError key)
  end.

(** [builder.get_object(name)]: the object of that name among those loaded,
    [None] when there is none. *)
Definition get_object (loaded : gset string) (name : string) : option string :=
  if decide (name ∈ loaded) then Some name else None.

(** An attribute of an object that may be [None]. *)
Definition attr_of {A} (o : option A) (name : string) : result A :=
  match o with
  | Some a => Ok a
  | None => Raise (AttributeError name)
  end.

Definition set_window (win : Window) (a : t) : t :=
  {| qapp := qapp a; dispatcher := dispatcher a; primary := primary a;
     keep_visible := keep_visible a; initial_page := initial_page a;
     start_in_background := start_in_background a; builder := builder a;
     main_window := Some win; main_notebook := main_notebook a;
     fav_app_list := fav_app_list a; sys_tools_list := sys_tools_list a;
     desktop_file_manager := desktop_file_manager a; vm_manager := vm_manager a;
     handlers := handlers a; power_button := power_button a;
     highlight_tag := highlight_tag a; tasks := tasks a |}.

Definition set_notebook (nb : Notebook) (a : t) : t :=
  {| qapp := qapp a; dispatcher := dispatcher a; primary := primary a;
     keep_visible := keep_visible a; initial_page := initial_page a;
     start_in_background := start_in_background a; builder := builder a;
     main_window := main_window a; main_notebook := Some nb;
     fav_app_list := fav_app_list a; sys_tools_list := sys_tools_list a;
     desktop_file_manager := desktop_file_manager a; vm_manager := vm_manager a;
     handlers := handlers a; power_button := power_button a;
     highlight_tag := highlight_tag a; tasks := tasks a |}.

Definition set_primary (b : bool) (a : t) : t :=
  {| qapp := qapp a; dispatcher := dispatcher a; primary := b;
     keep_visible := keep_visible a; initial_page := initial_page a;
     start_in_background := start_in_background a; builder := builder a;
     main_window := main_window a; main_notebook := main_notebook a;
     fav_app_list := fav_app_list a; sys_tools_list := sys_tools_list a;
     desktop_file_manager := desktop_file_manager a; vm_manager := vm_manager a;
     handlers := handlers a; power_button := power_button a;
     highlight_tag := highlight_tag a; tasks := tasks a |}.

Definition set_tasks (ts : list asyncio.Task) (a : t) : t :=
  {| qapp := qapp a; dispatcher := dispatcher a; primary := primary a;
     keep_visible := keep_visible a; initial_page := initial_page a;
     start_in_background := start_in_background a; builder := builder a;
     main_window := main_window a; main_notebook := main_notebook a;
     fav_app_list := fav_app_list a; sys_tools_list := sys_tools_list a;
     desktop_file_manager := desktop_file_manager a; vm_manager := vm_manager a;
     handlers := handlers a; power_button := power_button a;
     highlight_tag := highlight_tag a; tasks := ts |}.

Definition with_app (f : t → t) (w : World) : World :=
  {| app := f (app w); objects := objects w; menus := menus w; log := log w |}.

Definition emit (e : effect) (w : World) : World :=
  {| app := app w; objects := objects w; menus := menus w; log := log w ++ [e] |}.

Definition win_set_visible (b : bool) (win : Window) : Window :=
  {| win_visible := b; win_events := win_events win; win_connected := win_connected win |}.

(** [self.main_window.hide()] *)
Definition window_hide (win : Window) (w : World) : World :=
  emit hide (with_app (set_window (win_set_visible false win)) w).

(** [self.main_window.present()] *)
Definition window_present (win : Window) (w : World) : World :=
  emit present (with_app (set_window (win_set_visible true win)) w).

(** [self.main_window.show_all()] *)
Definition window_show_all (win : Window) (w : World) : World :=
  emit show_all (with_app (set_window (win_set_visible true win)) w).

(** [self.main_notebook.set_current_page(n)] *)
Definition notebook_set_current_page (n : Z) (nb : Notebook) (w : World) : World :=
  emit (set_current_page n)
    (with_app (set_notebook {| current_page := Some n; nb_connected := nb_connected nb |}) w).

(** [load_style]: the style sheet is installed for the screen and the
    highlight tag is computed from the colours it gives. *)
Definition load_style (env : Env) (a : t) : t :=
  {| qapp := qapp a; dispatcher := dispatcher a; primary := primary a;
     keep_visible := keep_visible a; initial_page := initial_page a;
     start_in_background := start_in_background a; builder := builder a;
     main_window := main_window a; main_notebook := main_notebook a;
     fav_app_list := fav_app_list a; sys_tools_list := sys_tools_list a;
     desktop_file_manager := desktop_file_manager a; vm_manager := vm_manager a;
     handlers := handlers a; power_button := power_button a;
     highlight_tag := Some (theme_highlight_tag env); tasks := tasks a |}.

(** A window or notebook as the builder hands it out: hidden, nothing
    connected. *)
Definition built_window : Window :=
  {| win_visible := false; win_events := []; win_connected := [] |}.

Definition built_notebook : Notebook :=
  {| current_page := None; nb_connected := [] |}.

Definition win_connect (signal handler : string) (win : Window) : Window :=
  {| win_visible := win_visible win; win_events := win_events win;
     win_connected := win_connected win ++ [(signal, handler)] |}.

Definition perform_setup (env : Env) (w : World) : result World :=
  let a := load_style env (app w) in
  let '(builder_ref, h) := new Builder (objects w) in
  let fav := get_object ∅ "fav_app_list" in
  let sys := get_object ∅ "sys_tools_list" in
  let loaded := glade env in
  let main_window := (λ _, built_window) <$> get_object loaded "main_window" in
  let main_notebook := (λ _, built_notebook) <$> get_object loaded "main_notebook" in
  win ← attr_of main_window "set_events";
  let win :=
    {| win_visible := win_visible win; win_events := ["FOCUS_CHANGE_MASK"];
       win_connected := win_connected win |} in
  let win := win_connect "focus-out-event" "_focus_out" win in
  let win := win_connect "key_press_event" "_key_press" win in
  let '(dfm, h) := new (DesktopFileManager (qapp a)) h in
  let '(vmm, h) := new (VMManager (qapp a) (dispatcher a)) h in
  let '(search_page, h) := new (SearchPage vmm builder_ref dfm) h in
  let '(app_page, h) := new (AppPage vmm builder_ref dfm) h in
  let '(favorites_page, h) :=
    new (FavoritesPage (qapp a) builder_ref dfm (dispatcher a) vmm) h in
  let '(settings_page, h) :=
    new (SettingsPage (qapp a) builder_ref dfm (dispatcher a)) h in
  let handlers :=
    [("search_page", search_page); ("app_page", app_page);
     ("favorites_page", favorites_page); ("settings_page", settings_page)] in
  let power_button := (λ _, []) <$> get_object loaded "power_button" in
  button ← attr_of power_button "connect";
  let button := button ++ [("clicked", "_do_power_button")] in
  nb ← attr_of main_notebook "connect";
  let nb :=
    {| current_page := current_page nb;
       nb_connected := nb_connected nb ++ [("switch-page", "_handle_page_switch")] |} in
  let win :=
    {| win_visible := win_visible win;
       win_events := win_events win ++ ["KEY_PRESS_MASK"];
       win_connected := win_connected win |} in
  let win := win_connect "key_press_event" "_key_pressed" win in
  Ok {| app :=
          {| qapp := qapp a; dispatcher := dispatcher a; primary := primary a;
             keep_visible := keep_visible a; initial_page := initial_page a;
             start_in_background := start_in_background a;
             builder := Some builder_ref;
             main_window := Some win; main_notebook := Some nb;
             fav_app_list := fav; sys_tools_list := sys;
             desktop_file_manager := Some dfm; vm_manager := Some vmm;
             handlers := handlers; power_button := Some button;
             highlight_tag := highlight_tag a; tasks := tasks a |};
        objects := h; menus := menus w; log := log w |}.

Definition initialize_state (w : World) : World :=
  let w :=
    match main_notebook (app w) with
    | Some nb => notebook_set_current_page (initial_page (app w)) nb w
    | None => w
    end in
  foldl (λ w' page, emit (initialize_page page) w') w (handlers (app w)).*2.

(** Where control is when [do_activate] has done its work: back at the
    caller, or still inside [run_until_complete]. *)
Inductive control : Type := returned | in_event_loop.

(** [do_activate].  The height test compares with nine tenths of the screen
    height, and [int] cuts the fraction off. *)
Definition do_activate (env : Env) (w : World) : result (World * control) :=
  if negb (primary (app w)) then
    w ← perform_setup env w;
    let w := with_app (set_primary true) w in
    win ← match main_window (app w) with
          | Some win => Ok win
          | None => Raise AssertionError
          end;
    let w := if negb (start_in_background (app w)) then window_show_all win w else w in
    let w := initialize_state w in
    let current_height := allocated_height env in
    let w :=
      if 9 * screen_height env <? 10 * current_height then
        emit (resize (allocated_width env) (Z.quot (9 * screen_height env) 10)) w
      else w in
    let w :=
      with_app
        (set_tasks [asyncio.ensure_future "dispatcher.listen_for_events" (listener env)]) w in
    match asyncio.wait_FIRST_EXCEPTION (tasks (app w)) with
    | Some _ => Ok (w, returned)
    | None => Ok (w, in_event_loop)
    end
  else
    let w :=
      match main_notebook (app w) with
      | Some nb => notebook_set_current_page (initial_page (app w)) nb w
      | None => w
      end in
    let w :=
      match main_window (app w) with
      | Some win =>
          if win_visible win && negb (keep_visible (app w)) then window_hide win w
          else window_present win w
      | None => w
      end in
    Ok (w, returned).

Definition hide_menu (w : World) : result World :=
  page ← getitem (handlers (app w)) "search_page";
  let w := emit (initialize_page page) w in
  match negb (keep_visible (app w)), main_window (app w) with
  | true, Some win => Ok (window_hide win w)
  | _, _ => Ok w
  end.

Inductive keyval : Type := KEY_Escape | KEY_other (code : Z).

Definition _key_press (event : keyval) (w : World) : result World :=
  match event with
  | KEY_Escape => hide_menu w
  | KEY_other _ => Ok w
  end.

Definition _focus_out (w : World) : result World :=
  if SelfAwareMenu.OPEN_MENUS (menus w) <=? 0 then hide_menu w else Ok w.

(** The options of a command line, as [do_command_line] reads them. *)
Record options : Type := {
  opt_keep_visible : bool;
  opt_page : option Z;
  opt_background : bool
}.

Definition do_command_line (env : Env) (o : options) (w : World)
  : result (World * control) :=
  let a := app w in
  let a :=
    {| qapp := qapp a; dispatcher := dispatcher a; primary := primary a;
       keep_visible := if opt_keep_visible o then true else keep_visible a;
       initial_page := default (initial_page a) (opt_page o);
       start_in_background :=
         if opt_background o then true else start_in_background a;
       builder := builder a;
       main_window := main_window a; main_notebook := main_notebook a;
       fav_app_list := fav_app_list a; sys_tools_list := sys_tools_list a;
       desktop_file_manager := desktop_file_manager a; vm_manager := vm_manager a;
       handlers := handlers a; power_button := power_button a;
       highlight_tag := highlight_tag a; tasks := tasks a |} in
  do_activate env {| app := a; objects := objects w; menus := menus w; log := log w |}.

(** A run of activations: each one starts from the state the one before
    left, whether that one has returned or sits in the event loop. *)
Fixpoint activations (env : Env) (n : nat) (w : World) : result World :=
  match n with
  | O => Ok w
  | S n' => r ← do_activate env w; activations env n' r.1
  end.

(** [self.handlers.get(key)] *)
Definition get (d : list (string * nat)) (key : string) : option nat :=
  match list_find (λ kv, kv.1 = key) d with
  | Some (_, (_, v)) => Some v
  | None => None
  end.

(** The key values of the navigation keys, as Gdk defines them. *)
Definition KEY_Up : Z := 65362.
Definition KEY_Down : Z := 65364.
Definition KEY_Left : Z := 65361.
Definition KEY_Right : Z := 65363.
Definition KEY_Return : Z := 65293.
Definition KEY_Tab : Z := 65289.

(** The test of [_key_pressed]: arrows, Escape, Return and Tab. *)
Definition is_navigation (k : keyval) : bool :=
  match k with
  | KEY_Escape => true
  | KEY_other code =>
      bool_decide (code ∈ [KEY_Up; KEY_Down; KEY_Left; KEY_Right; KEY_Return; KEY_Tab])
  end.

(** The process with what leaves it: the commands started with
    [subprocess.Popen], and how often the search entry was given the focus. *)
Record Process : Type := {
  world : World;
  spawned : list (list string);
  search_entry_grabs : nat
}.

Definition with_world (w : World) (p : Process) : Process :=
  {| world := w; spawned := spawned p; search_entry_grabs := search_entry_grabs p |}.

Definition Popen (argv : list string) (p : Process) : Process :=
  {| world := world p; spawned := spawned p ++ [argv];
     search_entry_grabs := search_entry_grabs p |}.

(** [_do_power_button] *)
Definition _do_power_button (p : Process) : Process := Popen ["xfce4-session-logout"] p.

(** [SettingsEntry.run_app(vm)], reaching the application through the
    toplevel window of the entry. *)
Definition run_app (vm_name : string) (p : Process) : result Process :=
  let p := Popen ["qubes-vm-settings"; vm_name] p in
  w ← hide_menu (world p);
  Ok (with_world w p).

(** [_key_pressed], with the value it returns.  The page the notebook shows
    is the page last set. *)
Definition _key_pressed (event_key : keyval) (p : Process) : Process * bool :=
  if negb (is_navigation event_key) then
    match get (handlers (app (world p))) "search_page" with
    | Some page =>
        match objects (world p) !! page with
        | Some (SearchPage _ _ _) =>
            let p :=
              {| world := world p; spawned := spawned p;
                 search_entry_grabs := S (search_entry_grabs p) |} in
            match main_notebook (app (world p)) with
            | None => (p, false)
            | Some nb =>
                if bool_decide (current_page nb ≠ Some 0) then
                  (with_world (notebook_set_current_page 0 nb (world p)) p, false)
                else (p, false)
            end
        | _ => (p, false)
        end
    | None => (p, false)
    end
  else (p, false).

(** [_handle_page_switch]; [name] is what [page.get_name()] answers. *)
Definition _handle_page_switch (name : string) (w : World) : World :=
  match get (handlers (app w)) name with
  | Some page_handler => emit (initialize_page page_handler) w
  | None => w
  end.

(** What reaches the application while it runs. *)
Inductive signal : Type :=
| command_line (o : options)
| focus_out_event
| key_press_event (k : keyval)
| switch_page (name : string)
| power_button_clicked
| settings_entry_activated (vm_name : string)
| menu_signal (e : SelfAwareMenu.event).

(** The handlers connected to each signal, in connection order: a key press
    goes to [_key_press] and then, since that returns nothing, to
    [_key_pressed]. *)
Definition handle (env : Env) (s : signal) (p : Process) : result Process :=
  match s with
  | command_line o =>
      r ← do_command_line env o (world p);
      Ok (with_world r.1 p)
  | focus_out_event =>
      w ← _focus_out (world p);
      Ok (with_world w p)
  | key_press_event k =>
      w ← _key_press k (world p);
      Ok (_key_pressed k (with_world w p)).1
  | switch_page name => Ok (with_world (_handle_page_switch name (world p)) p)
  | power_button_clicked => Ok (_do_power_button p)
  | settings_entry_activated vm_name => run_app vm_name p
  | menu_signal e =>
      Ok (with_world
            {| app := app (world p); objects := objects (world p);
               menus := SelfAwareMenu.step (menus (world p)) e;
               log := log (world p) |} p)
  end.

Fixpoint run (env : Env) (ss : list signal) (p : Process) : result Process :=
  match ss with
  | [] => Ok p
  | s :: ss' => p' ← handle env s p; run env ss' p'
  end.

(** The application after its setup: primary, with its window, its notebook
    and a handler for the search page. *)
Definition set_up (w : World) : Prop :=
  primary (app w) = true ∧
  is_Some (main_window (app w)) ∧
  is_Some (main_notebook (app w)) ∧
  is_Some (get (handlers (app w)) "search_page").

(** The effects a run has added to the log. *)
Definition added (w w' : World) : list effect := drop (length (log w)) (log w').

(** The kinds of object on the heap. *)
Definition is_Builder (o : obj) : bool :=
  match o with Builder => true | _ => false end.

Definition is_DesktopFileManager (o : obj) : bool :=
  match o with DesktopFileManager _ => true | _ => false end.

Definition is_VMManager (o : obj) : bool :=
  match o with VMManager _ _ => true | _ => false end.

Definition count (p : obj → bool) (h : heap) : nat := length (filter (λ o, p o = true) h).

(** The desktop-file manager and the VM manager a page was constructed
    with. *)
Definition page_desktop_file_manager (o : obj) : option nat :=
  match o with
  | SearchPage _ _ d | AppPage _ _ d | FavoritesPage _ _ d _ _ | SettingsPage _ _ d _ =>
      Some d
  | _ => None
  end.

Definition page_vm_manager (o : obj) : option nat :=
  match o with
  | SearchPage v _ _ | AppPage v _ _ | FavoritesPage _ _ _ _ v => Some v
  | _ => None
  end.

Definition is_page (o : obj) : bool :=
  match o with
  | SearchPage _ _ _ | AppPage _ _ _ | FavoritesPage _ _ _ _ _ | SettingsPage _ _ _ _ => true
  | _ => false
  end.

(** The glade file defines the widgets [perform_setup] asks the builder
    for. *)
Definition glade_complete (env : Env) : Prop :=
  "main_window" ∈ glade env ∧ "main_notebook" ∈ glade env ∧ "power_button" ∈ glade env.

(** Two states agree on everything [perform_setup] sets up: the objects
    constructed, the attributes that refer to them, and what is connected to
    the window and the notebook. *)
Definition same_setup (w w' : World) : Prop :=
  objects w' = objects w ∧
  builder (app w') = builder (app w) ∧
  desktop_file_manager (app w') = desktop_file_manager (app w) ∧
  vm_manager (app w') = vm_manager (app w) ∧
  handlers (app w') = handlers (app w) ∧
  power_button (app w') = power_button (app w) ∧
  highlight_tag (app w') = highlight_tag (app w) ∧
  fav_app_list (app w') = fav_app_list (app w) ∧
  sys_tools_list (app w') = sys_tools_list (app w) ∧
  (λ win, (win_events win, win_connected win)) <$> main_window (app w')
  = (λ win, (win_events win, win_connected win)) <$> main_window (app w) ∧
  nb_connected <$> main_notebook (app w') = nb_connected <$> main_notebook (app w).

(** Between two states the window has gone from hidden to visible or from
    visible to hidden. *)
Definition toggles_window (w w' : World) : Prop :=
  win_visible <$> main_window (app w') = negb <$> (win_visible <$> main_window (app w)).

(** The failure of the listener reaches the caller of [do_activate] as an
    exception. *)
Definition failure_propagates (env : Env) (w : World) : Prop :=
  ∀ e, listener env = asyncio.FAILED e → do_activate env w = Raise e.

(** What every handler keeps once the application is set up: the setup
    itself, [keep_visible] once it is on, and, while [keep_visible] is on, the
    window unhidden. *)
Definition quiet_step (w w' : World) : Prop :=
  set_up w' ∧
  same_setup w w' ∧
  (keep_visible (app w) = true → keep_visible (app w') = true) ∧
  ∃ l, log w' = log w ++ l ∧
       (keep_visible (app w) = true →
        (hide ∉ l) ∧
        (win_visible <$> main_window (app w) = Some true →
         win_visible <$> main_window (app w') = Some true)).

(** The options stand as they stood. *)
Definition same_options (w w' : World) : Prop :=
  keep_visible (app w') = keep_visible (app w) ∧
  initial_page (app w') = initial_page (app w) ∧
  start_in_background (app w') = start_in_background (app w).

(** What the command lines among the signals ask for; of several pages, the
    last one asked for. *)
Definition asks_keep_visible (ss : list signal) : bool :=
  existsb (λ s, if s is command_line o then opt_keep_visible o else false) ss.

Definition asks_background (ss : list signal) : bool :=
  existsb (λ s, if s is command_line o then opt_background o else false) ss.

Fixpoint asked_page (ss : list signal) : option Z :=
  match ss with
  | [] => None
  | s :: ss' =>
      match asked_page ss' with
      | Some n => Some n
      | None => if s is command_line o then opt_page o else None
      end
  end.

End AppMenu.

(** ** Concrete inputs for the examples *)

Module Examples.

(** A loader whose pixbufs are the icon names. *)
Definition icons_by_name : IconLoader :=
  {| Pixbuf := string; load_icon := λ name _ _, name |}.

(** A disposable VM started from the template [default-dvm], running. *)
Definition disp1 : VMEntry :=
  {| vm_name := "disp1"; power_state := "Running"; parent_vm := Some "default-dvm";
     is_dispvm_template := false; has_network := true;
     vm_icon_name := "appvm-red"; sort_name := "default-dvm:disp1" |}.

(** The same VM after shutdown. *)
Definition disp1_halted : VMEntry :=
  {| vm_name := "disp1"; power_state := "Halted"; parent_vm := Some "default-dvm";
     is_dispvm_template := false; has_network := true;
     vm_icon_name := "appvm-red"; sort_name := "default-dvm:disp1" |}.

(** A persistent VM: no parent, not a template for disposables. *)
Definition work : VMEntry :=
  {| vm_name := "work"; power_state := "Halted"; parent_vm := None;
     is_dispvm_template := false; has_network := true;
     vm_icon_name := "appvm-blue"; sort_name := "work" |}.

(** A desktop on which the glade file defines the widgets of the menu, and on
    which the listener ends as given. *)
Definition desktop (l : asyncio.future_state) : AppMenu.Env :=
  {| AppMenu.glade :=
       {[ "main_window"; "main_notebook"; "power_button"; "fav_app_list"; "sys_tools_list" ]};
     AppMenu.theme_highlight_tag := "<span background=#ffffff color=#000000>";
     AppMenu.allocated_width := 800;
     AppMenu.allocated_height := 1000;
     AppMenu.screen_height := 1080;
     AppMenu.listener := l |}.

(** The command line [-k]: keep the menu visible. *)
Definition keep_visible_option : AppMenu.options :=
  {| AppMenu.opt_keep_visible := true; AppMenu.opt_page := None;
     AppMenu.opt_background := false |}.

(** The process before its first activation when the command line was
    [-b]: start in the background. *)
Definition background_start : AppMenu.World :=
  {| AppMenu.app :=
       {| AppMenu.qapp := 0; AppMenu.dispatcher := 1;
          AppMenu.primary := false; AppMenu.keep_visible := false;
          AppMenu.initial_page := 1; AppMenu.start_in_background := true;
          AppMenu.builder := None; AppMenu.main_window := None;
          AppMenu.main_notebook := None;
          AppMenu.fav_app_list := None; AppMenu.sys_tools_list := None;
          AppMenu.desktop_file_manager := None; AppMenu.vm_manager := None;
          AppMenu.handlers := [];
          AppMenu.power_button := None; AppMenu.highlight_tag := None;
          AppMenu.tasks := [] |};
     AppMenu.objects := [];
     AppMenu.menus := SelfAwareMenu.class_body;
     AppMenu.log := [] |}.

End Examples.

(** * Properties *)

(** ** The counter of open menus *)

Section OpenMenus.
Import SelfAwareMenu.

Lemma step_realize c id : OPEN_MENUS (step c (realize id)) = OPEN_MENUS c + 1.
Proof. reflexivity. Qed.

Lemma step_deactivate c id : OPEN_MENUS (step c (deactivate id)) = OPEN_MENUS c - 1.
Proof. reflexivity. Qed.

Lemma size_open_realize (s : gset nat) id :
  id ∉ s → size ({[ id ]} ∪ s) = S (size s).
Proof.
  intros Hid. rewrite size_union; [|set_solver]. by rewrite size_singleton.
Qed.

Lemma size_open_deactivate (s : gset nat) id :
  id ∈ s → S (size (s ∖ {[ id ]})) = size s.
Proof.
  intros Hid.
  assert (Hd : size (s ∖ {[ id ]}) = (size s - 1)%nat).
  { rewrite size_difference by set_solver. by rewrite size_singleton. }
  assert (Hpos : size s ≠ 0%nat).
  { intros Hz. apply size_empty_iff in Hz. set_solver. }
  lia.
Qed.

(** The counter and the set of open menus move together along a well-formed
    trace, from any state in which they agree. *)
Lemma run_counts_from tr : ∀ (s : gset nat) c,
  well_formed_from s tr = true →
  OPEN_MENUS c = Z.of_nat (size s) →
  OPEN_MENUS (foldl step c tr) = Z.of_nat (size (foldl open_step s tr)).
Proof.
  induction tr as [|[id|id] tr IH]; intros s c Hwf Hc; simpl in *; [done| |].
  - apply andb_prop in Hwf as [Hid Hwf]. apply bool_decide_eq_true in Hid.
    apply IH; [done|].
    rewrite size_open_realize by done. change (OPEN_MENUS c + 1 = Z.of_nat (S (size s))). lia.
  - apply andb_prop in Hwf as [Hid Hwf]. apply bool_decide_eq_true in Hid.
    apply IH; [done|].
    pose proof (size_open_deactivate s id Hid).
    change (OPEN_MENUS c - 1 = Z.of_nat (size (s ∖ {[ id ]}))). lia.
Qed.

Lemma well_formed_from_prefix pre : ∀ suf (s : gset nat),
  well_formed_from s (pre ++ suf) = true → well_formed_from s pre = true.
Proof.
  induction pre as [|[id|id] pre IH]; intros suf s Hwf; simpl in *; [done| |];
    apply andb_prop in Hwf as [Hid Hwf]; rewrite Hid; simpl; by eapply IH.
Qed.

End OpenMenus.

(** Outside the well-formed traces the counter can run below zero: a menu
    that is closed a second time without a new [realize] takes one away
    again.  [_focus_out] compares with [<= 0] for that reason. *)
Example counter_of_a_menu_closed_twice :
  SelfAwareMenu.OPEN_MENUS
    (SelfAwareMenu.run
       [SelfAwareMenu.realize 1; SelfAwareMenu.deactivate 1; SelfAwareMenu.deactivate 1]
       SelfAwareMenu.class_body) = -1.
Proof. reflexivity. Qed.

(** C1. A [realize] event adds exactly one to [OPEN_MENUS] and a
    [deactivate] event takes exactly one away; hence along every trace of
    such events that starts from the class as defined (counter zero) and in
    which each menu is deactivated at most once after being realized, the
    counter equals, at every point of the trace, the number of menus open at
    that point, and is never negative. *)
Theorem open_menus_counts_the_open_menus :
  (∀ c id, SelfAwareMenu.OPEN_MENUS (SelfAwareMenu.step c (SelfAwareMenu.realize id))
           = SelfAwareMenu.OPEN_MENUS c + 1) ∧
  (∀ c id, SelfAwareMenu.OPEN_MENUS (SelfAwareMenu.step c (SelfAwareMenu.deactivate id))
           = SelfAwareMenu.OPEN_MENUS c - 1) ∧
  (∀ tr, SelfAwareMenu.well_formed tr = true →
     ∀ pre, pre `prefix_of` tr →
       SelfAwareMenu.OPEN_MENUS (SelfAwareMenu.run pre SelfAwareMenu.class_body)
       = Z.of_nat (size (SelfAwareMenu.open_menus pre)) ∧
       0 ≤ SelfAwareMenu.OPEN_MENUS (SelfAwareMenu.run pre SelfAwareMenu.class_body)).
Proof.
  split; [exact step_realize|]. split; [exact step_deactivate|].
  intros tr Hwf pre [suf ->].
  apply well_formed_from_prefix in Hwf.
  assert (Heq : SelfAwareMenu.OPEN_MENUS (SelfAwareMenu.run pre SelfAwareMenu.class_body)
                = Z.of_nat (size (SelfAwareMenu.open_menus pre))).
  { apply run_counts_from; [done|]. by rewrite size_empty. }
  split; [done|]. rewrite Heq. lia.
Qed.

Lemma open_menus_counts_the_open_menus_witness :
  let tr := [SelfAwareMenu.realize 1; SelfAwareMenu.realize 2; SelfAwareMenu.deactivate 1] in
  SelfAwareMenu.well_formed tr = true ∧
  SelfAwareMenu.OPEN_MENUS (SelfAwareMenu.run tr SelfAwareMenu.class_body)
  = Z.of_nat (size (SelfAwareMenu.open_menus tr)) ∧
  0 ≤ SelfAwareMenu.OPEN_MENUS (SelfAwareMenu.run tr SelfAwareMenu.class_body).
Proof.
  intros tr. split; [by vm_compute|].
  apply (proj2 (proj2 open_menus_counts_the_open_menus) tr); [by vm_compute|done].
Defined.

(** ** The network indicator *)

(** C7. Whatever calls came before, after [set_network_state state] the box
    is visible, the network-on image is visible exactly when [state] is
    true and the network-off image exactly when it is false; so exactly one
    of the two is visible, and calling again with the same argument changes
    nothing. *)
Theorem set_network_state_reflects_state `{IconLoader}
  (calls : list bool) (state : bool) :
  let before := foldl (λ i s, NetworkIndicator.set_network_state s i)
                  NetworkIndicator.__init__ calls in
  let after := NetworkIndicator.set_network_state state before in
  NetworkIndicator.visible after = true ∧
  (Gtk.img_visible (NetworkIndicator.network_on after) = true ↔ state = true) ∧
  (Gtk.img_visible (NetworkIndicator.network_off after) = true ↔ state = false) ∧
  Gtk.img_visible (NetworkIndicator.network_on after)
    = negb (Gtk.img_visible (NetworkIndicator.network_off after)) ∧
  NetworkIndicator.set_network_state state after = after.
Proof.
  intros before after. subst after. generalize before as i. clear before.
  intros i. destruct state; simpl; repeat split; auto; discriminate.
Qed.

(** ** Rows *)

Section Rows.
Context `{IconLoader}.
Import VMRow.

Lemma eqb_Running s : String.eqb s "Running" = true ↔ s = "Running".
Proof. apply String.eqb_eq. Qed.

Ltac style_cases w :=
  unfold update_style;
  destruct (is_dispvm_template (vm_entry w)) eqn:Htemplate;
  destruct (truthy (parent_vm (vm_entry w))) eqn:Hparent;
  simpl.

Lemma update_style_vm_entry b w : vm_entry (update_style b w) = vm_entry w.
Proof.
  style_cases w; destruct b; try reflexivity;
    destruct (String.eqb (power_state (vm_entry w)) "Running"); reflexivity.
Qed.

Lemma update_style_parent b w : parent (update_style b w) = parent w.
Proof.
  style_cases w; destruct b; try reflexivity;
    destruct (String.eqb (power_state (vm_entry w)) "Running"); reflexivity.
Qed.

Lemma update_style_icon b w : icon_img (row (update_style b w)) = icon_img (row w).
Proof.
  style_cases w; destruct b; try reflexivity;
    destruct (String.eqb (power_state (vm_entry w)) "Running"); reflexivity.
Qed.

Lemma update_style_running w :
  "running_vm" ∈ style_context (row (update_style true w))
  ↔ power_state (vm_entry w) = "Running".
Proof.
  rewrite <- eqb_Running.
  style_cases w;
    destruct (String.eqb (power_state (vm_entry w)) "Running"); simpl; set_solver.
Qed.

Lemma update_style_style_ext b w w' :
  vm_entry w = vm_entry w' →
  style_context (row w) = style_context (row w') →
  style_context (row (update_style b w)) = style_context (row (update_style b w')).
Proof.
  intros He Hs. unfold update_style. rewrite <- He.
  destruct (is_dispvm_template (vm_entry w)), (truthy (parent_vm (vm_entry w))), b;
    simpl; rewrite <- ?He; try destruct (String.eqb (power_state (vm_entry w)) "Running");
    simpl; by rewrite Hs.
Qed.

Lemma pixbuf_img_show_all (i : Gtk.Image) : Gtk.pixbuf (Gtk.img_show_all i) = Gtk.pixbuf i.
Proof. unfold Gtk.img_show_all. by destruct (Gtk.no_show_all i). Qed.

#[local] Arguments update_style : simpl never.

(** [update_contents] never raises.  It leaves the entry as it was, the
    style classes as [update_style] sets them when that runs, and the icon of
    the entry when the label is to be updated. *)
Lemma update_contents_ok ups ulab unet utype w :
  ∃ w', update_contents ups ulab unet utype w = Ok w' ∧
        vm_entry w' = vm_entry w ∧
        style_context (row w')
        = (if utype || ups then style_context (row (update_style ups w))
           else style_context (row w)) ∧
        Gtk.pixbuf (icon_img (row w'))
        = (if ulab then Some (load_icon (vm_icon_name (vm_entry w)) None None)
           else Gtk.pixbuf (icon_img (row w))).
Proof.
  destruct w as [e r p]. unfold update_contents, is_selected, parent_call, get_parent.
  destruct ulab; simpl.
  all: destruct (utype || ups); simpl; rewrite ?update_style_parent; simpl.
  all: destruct p as [lb|]; simpl; rewrite ?update_style_parent; simpl.
  all: destruct unet; simpl; try destruct (bool_decide _); simpl.
  all: eexists; (split; [reflexivity|]); simpl.
  all: rewrite ?update_style_vm_entry, ?update_style_icon; simpl.
  all: repeat split; try reflexivity.
  all: try (apply update_style_style_ext; reflexivity).
  all: try destruct (bool_decide _); by rewrite ?pixbuf_img_show_all.
Qed.

Lemma update_style_row_id b w : row_id (row (update_style b w)) = row_id (row w).
Proof.
  unfold update_style.
  destruct (is_dispvm_template (vm_entry w)), (truthy (parent_vm (vm_entry w))), b;
    simpl; try destruct (String.eqb (power_state (vm_entry w)) "Running"); reflexivity.
Qed.

(** What [update_contents] does to the list the row is packed in. *)
Lemma update_contents_parent ups ulab unet utype w w' :
  update_contents ups ulab unet utype w = Ok w' →
  parent w' =
    (λ lb,
       let lb :=
         if utype || ups then
           Gtk.select_row None (Gtk.invalidate_filter (Gtk.invalidate_sort lb))
         else lb in
       if unet && bool_decide (Gtk.selected_row lb = Some (row_id (row w))) then
         Gtk.select_row (Some (row_id (row w))) (Gtk.select_row None lb)
       else lb) <$> parent w.
Proof.
  destruct w as [e r p]. unfold update_contents, is_selected, parent_call, get_parent.
  destruct ulab; simpl.
  all: destruct (utype || ups); simpl; rewrite ?update_style_parent; simpl.
  all: destruct p as [lb|]; simpl; rewrite ?update_style_parent; simpl.
  all: destruct unet; simpl; rewrite ?update_style_row_id; simpl.
  all: try destruct (bool_decide _) eqn:Hsel; simpl.
  all: intros [= <-]; simpl; rewrite ?update_style_parent; simpl.
  all: rewrite ?update_style_row_id; simpl; try rewrite Hsel; reflexivity.
Qed.

(** C3. After [VMRow.update_contents] with [update_power_state=True],
    whatever the other flags and the state of the row before, the row has the
    style class [running_vm] exactly when the power state of its entry is
    ['Running']; an entry that is ['Halted'] or ['Transient'] is shown as not
    running.  The call returns and leaves the entry as it was. *)
Theorem running_vm_class_iff_running
  (update_label update_has_network update_type : bool) (w : World) :
  ∃ w', update_contents true update_label update_has_network update_type w = Ok w' ∧
        vm_entry w' = vm_entry w ∧
        ("running_vm" ∈ style_context (row w') ↔ power_state (vm_entry w') = "Running") ∧
        (power_state (vm_entry w') = "Halted" → "running_vm" ∉ style_context (row w')) ∧
        (power_state (vm_entry w') = "Transient" → "running_vm" ∉ style_context (row w')).
Proof.
  destruct (update_contents_ok true update_label update_has_network update_type w)
    as (w' & Hrun & Hentry & Hstyle & _).
  exists w'. rewrite orb_true_r in Hstyle.
  assert (Hiff : "running_vm" ∈ style_context (row w')
                 ↔ power_state (vm_entry w') = "Running").
  { rewrite Hstyle, Hentry. apply update_style_running. }
  repeat split; try tauto; try apply Hiff.
  - intros Hhalted Hin. apply Hiff in Hin. congruence.
  - intros Htransient Hin. apply Hiff in Hin. congruence.
Qed.

(** C5. [update_contents] recomputes only what the flags name.  With
    [update_label=False] the pixbuf of the icon stays; with [update_type] and
    [update_power_state] both [False] the style classes of the row stay, and
    so do the selected row of the parent list and the number of times its
    sorting and filtering were invalidated; with [update_has_network=False]
    no [select_row] call on the parent list selects a row; with all four
    [False] the entry, the style classes, the icon and the parent list are as
    before.  In each case the call returns. *)
Theorem update_contents_frame :
  (∀ ups unet utype w,
     ∃ w', update_contents ups false unet utype w = Ok w' ∧
           Gtk.pixbuf (icon_img (row w')) = Gtk.pixbuf (icon_img (row w))) ∧
  (∀ ulab unet w,
     ∃ w', update_contents false ulab unet false w = Ok w' ∧
           style_context (row w') = style_context (row w) ∧
           list_state <$> parent w' = list_state <$> parent w) ∧
  (∀ ups ulab utype w,
     ∃ w', update_contents ups ulab false utype w = Ok w' ∧
           no_row_selected_between w w') ∧
  (∀ w,
     ∃ w', update_contents false false false false w = Ok w' ∧
           vm_entry w' = vm_entry w ∧
           style_context (row w') = style_context (row w) ∧
           Gtk.pixbuf (icon_img (row w')) = Gtk.pixbuf (icon_img (row w)) ∧
           parent w' = parent w).
Proof.
  repeat split.
  - intros ups unet utype w.
    destruct (update_contents_ok ups false unet utype w) as (w' & Hrun & _ & _ & Hicon).
    by exists w'.
  - intros ulab unet w.
    destruct (update_contents_ok false ulab unet false w) as (w' & Hrun & _ & Hstyle & _).
    exists w'. repeat split; [done..|].
    rewrite (update_contents_parent _ _ _ _ _ _ Hrun). simpl.
    destruct (parent w) as [lb|]; [|done]. simpl.
    destruct unet; simpl; [|done].
    case_bool_decide as Hsel; [|done].
    unfold list_state. simpl. by rewrite Hsel.
  - intros ups ulab utype w.
    destruct (update_contents_ok ups ulab false utype w) as (w' & Hrun & _).
    exists w'. split; [done|].
    unfold no_row_selected_between.
    rewrite (update_contents_parent _ _ _ _ _ _ Hrun). simpl.
    destruct (parent w) as [lb|]; [|done]. simpl.
    destruct (utype || ups); simpl.
    + exists [None]. split; [done|]. by constructor.
    + exists []. split; [by rewrite app_nil_r|]. constructor.
  - intros w.
    destruct (update_contents_ok false false false false w)
      as (w' & Hrun & Hentry & Hstyle & Hicon).
    exists w'. repeat split; [done..|].
    rewrite (update_contents_parent _ _ _ _ _ _ Hrun). simpl.
    by destruct (parent w).
Qed.

Lemma update_style_main_box b w : main_box (row (update_style b w)) = main_box (row w).
Proof.
  unfold update_style.
  destruct (is_dispvm_template (vm_entry w)), (truthy (parent_vm (vm_entry w))), b;
    simpl; try destruct (String.eqb (power_state (vm_entry w)) "Running"); reflexivity.
Qed.

Lemma update_style_dispvm_icon b w :
  dispvm_icon (row (update_style b w)) = dispvm_icon (row w).
Proof.
  unfold update_style.
  destruct (is_dispvm_template (vm_entry w)), (truthy (parent_vm (vm_entry w))), b;
    simpl; try destruct (String.eqb (power_state (vm_entry w)) "Running"); reflexivity.
Qed.

(** [update_contents] keeps what is packed in the box of the row; it only
    shows it. *)
Lemma update_contents_box ups ulab unet utype w w' :
  update_contents ups ulab unet utype w = Ok w' →
  main_box (row w') = main_box (row w) ∧
  (is_Some (dispvm_icon (row w')) ↔ is_Some (dispvm_icon (row w))).
Proof.
  destruct w as [e r p]. unfold update_contents, is_selected, parent_call, get_parent.
  destruct ulab; simpl.
  all: destruct (utype || ups); simpl; rewrite ?update_style_parent; simpl.
  all: destruct p as [lb|]; simpl; rewrite ?update_style_parent; simpl.
  all: destruct unet; simpl; try destruct (bool_decide (Gtk.selected_row _ = _)); simpl.
  all: intros [= <-]; simpl.
  all: rewrite ?update_style_main_box, ?update_style_dispvm_icon; simpl.
  all: split; [reflexivity|].
  all: destruct (bool_decide _); [|reflexivity].
  all: by rewrite fmap_is_Some.
Qed.

(** The row as [__init__] has built it when it calls [update_contents]. *)
Lemma init_ok c id e :
  ∃ w, __init__ c id e = Ok w ∧
       vm_entry w = e ∧
       parent w = None ∧
       style_context (row w)
       = style_context
           (row (update_style (if c is VMRow_cls then true else false)
                   {| vm_entry := e;
                      row := add_class "vm_entry" (HoverListBox__init__ c id);
                      parent := None |})) ∧
       (is_Some (dispvm_icon (row w)) ↔ truthy (parent_vm e) = true) ∧
       ("dispvm_icon" ∈ main_box (row w) ↔ truthy (parent_vm e) = true).
Proof.
  unfold __init__, self_update_contents, SearchVMRow_update_contents.
  set (w0 := {| vm_entry := e; row := _; parent := None |}).
  assert (Hcls : cls (row w0) = c).
  { subst w0. simpl. by destruct (truthy (parent_vm e)). }
  rewrite Hcls.
  assert (Hbox : "dispvm_icon" ∈ main_box (row w0) ↔ truthy (parent_vm e) = true).
  { subst w0. simpl. destruct (truthy (parent_vm e)); simpl; set_solver. }
  assert (Hicon : is_Some (dispvm_icon (row w0)) ↔ truthy (parent_vm e) = true).
  { subst w0. simpl. destruct (truthy (parent_vm e)); simpl.
    - split; [done|]. intros _. by eexists.
    - split; [intros [? [=]]|done]. }
  assert (Hsty : style_context (row w0)
                 = style_context (add_class "vm_entry" (HoverListBox__init__ c id))).
  { subst w0. simpl. by destruct (truthy (parent_vm e)). }
  assert (Hent : vm_entry w0 = e) by done.
  assert (Hpar : parent w0 = None) by done.
  clearbody w0.
  assert (Hgoal : ∀ ups ulab unet utype,
    utype || ups = true →
    ∃ w, update_contents ups ulab unet utype w0 = Ok w ∧
         vm_entry w = e ∧ parent w = None ∧
         style_context (row w)
         = style_context
             (row (update_style ups
                     {| vm_entry := e;
                        row := add_class "vm_entry" (HoverListBox__init__ c id);
                        parent := None |})) ∧
         (is_Some (dispvm_icon (row w)) ↔ truthy (parent_vm e) = true) ∧
         ("dispvm_icon" ∈ main_box (row w) ↔ truthy (parent_vm e) = true)).
  { intros ups ulab unet utype Hflags.
    destruct (update_contents_ok ups ulab unet utype w0) as (w & Hrun & Hentry & Hstyle & _).
    exists w. rewrite Hflags in Hstyle.
    pose proof (update_contents_parent _ _ _ _ _ _ Hrun) as Hparent.
    rewrite Hpar in Hparent. simpl in Hparent.
    destruct (update_contents_box _ _ _ _ _ _ Hrun) as [Hbox' Hicon'].
    split; [done|]. split; [congruence|]. split; [done|]. split.
    - rewrite Hstyle. by apply update_style_style_ext.
    - split; [by rewrite Hicon'|by rewrite Hbox']. }
  destruct c; by apply Hgoal.
Qed.

(** C6. A missing parent (a [parent_vm] that is [None] or otherwise false)
    is no error: building the row returns, the row has no dispvm-child icon,
    neither as attribute nor packed in its box, and it is not styled as the
    child of a template.  In general the icon is there exactly when
    [parent_vm] is set. *)
Theorem missing_parent_is_no_parent c id e :
  ∃ w, __init__ c id e = Ok w ∧
       (is_Some (dispvm_icon (row w)) ↔ truthy (parent_vm e) = true) ∧
       ("dispvm_icon" ∈ main_box (row w) ↔ truthy (parent_vm e) = true) ∧
       (truthy (parent_vm e) = false →
        dispvm_icon (row w) = None ∧
        ("dispvm_icon" ∉ main_box (row w)) ∧
        ("dispvm_entry" ∉ style_context (row w))).
Proof.
  destruct (init_ok c id e) as (w & Hrun & Hentry & _ & Hstyle & Hicon & Hbox).
  exists w. split; [done|]. split; [done|]. split; [done|].
  intros Hnone. split; [|split].
  - destruct (dispvm_icon (row w)) as [i|]; [|done].
    assert (Hs : is_Some (Some i)) by by eexists.
    apply Hicon in Hs. congruence.
  - intros Hin%Hbox. congruence.
  - rewrite Hstyle. unfold update_style. simpl. rewrite Hnone.
    destruct (is_dispvm_template e), c; simpl;
      try destruct (String.eqb (power_state e) "Running"); simpl; set_solver.
Qed.

(** The part of the variant styling that survives changes of the entry: a
    row of a template never has the class of a child, and a row of a
    non-template never has the class of a template. *)
Lemma update_style_variant b w d :
  is_dispvm_template (vm_entry w) = d →
  (d = false → "dvm_template_entry" ∉ style_context (row w)) →
  (d = true → "dispvm_entry" ∉ style_context (row w)) →
  style_matches_variant (update_style b w) ∧
  (d = false → "dvm_template_entry" ∉ style_context (row (update_style b w))) ∧
  (d = true → "dispvm_entry" ∉ style_context (row (update_style b w))).
Proof.
  intros Hd Hno_template Hno_child. unfold style_matches_variant. cbv zeta.
  rewrite update_style_vm_entry. unfold update_style. rewrite Hd.
  destruct d; [specialize (Hno_child eq_refl)|specialize (Hno_template eq_refl)];
    destruct (truthy (parent_vm (vm_entry w))), b; simpl;
    try destruct (String.eqb (power_state (vm_entry w)) "Running"); simpl;
    (split; [|split; intros; try done; set_solver]);
    repeat split; try done; try set_solver; intros; try set_solver.
Qed.

Lemma acts_variant tr : ∀ w d,
  is_dispvm_template (vm_entry w) = d →
  (d = false → "dvm_template_entry" ∉ style_context (row w)) →
  (d = true → "dispvm_entry" ∉ style_context (row w)) →
  Forall (λ e', is_dispvm_template e' = d) (assigned tr) →
  is_dispvm_template (vm_entry (acts tr w)) = d ∧
  (d = false → "dvm_template_entry" ∉ style_context (row (acts tr w))) ∧
  (d = true → "dispvm_entry" ∉ style_context (row (acts tr w))).
Proof.
  induction tr as [|[e'|b] tr IH]; intros w d Hd Hno_template Hno_child Hall; [done| |].
  - apply Forall_cons in Hall as [He' Hall]. by apply IH.
  - destruct (update_style_variant b w d Hd Hno_template Hno_child) as (_ & Ht & Hc).
    apply (IH (update_style b w) d); [by rewrite update_style_vm_entry|done..].
Qed.

(** C4. Let a row be built for an entry, and let its life be any sequence
    of assignments to the entry that keep [is_dispvm_template], and of
    [update_style] calls.  Then the row as built, and the row after each
    further [update_style] call, has the class [dvm_template_entry] exactly
    when the entry is a template, [dispvm_entry] exactly when it is not a
    template and has a parent, never both, and neither when it is a plain
    VM. *)
Theorem style_follows_variant c id e w0 tr b :
  __init__ c id e = Ok w0 →
  Forall (λ e', is_dispvm_template e' = is_dispvm_template e) (assigned tr) →
  style_matches_variant w0 ∧ style_matches_variant (update_style b (acts tr w0)).
Proof.
  intros Hrun Hall.
  destruct (init_ok c id e) as (w & Hrun' & Hentry & _ & Hstyle & _).
  rewrite Hrun in Hrun'. injection Hrun' as <-.
  set (fresh := {| vm_entry := e;
                   row := add_class "vm_entry" (HoverListBox__init__ c id);
                   parent := None |}) in Hstyle.
  destruct (update_style_variant (if c is VMRow_cls then true else false) fresh
              (is_dispvm_template e)) as (Hm & Hno_template & Hno_child);
    [done|intros _; set_solver..|].
  assert (Hm0 : style_matches_variant w0).
  { unfold style_matches_variant in *. cbv zeta in *.
    rewrite update_style_vm_entry in Hm.
    by rewrite Hstyle, Hentry. }
  split; [done|].
  rewrite <- Hstyle in Hno_template, Hno_child.
  destruct (acts_variant tr w0 (is_dispvm_template e)) as (Hd & ? & ?);
    [by rewrite Hentry|done..|].
  by destruct (update_style_variant b (acts tr w0) (is_dispvm_template e)) as [? _].
Qed.

(** The generic row of the search tab has no entry and neither class. *)
Lemma any_vm_row_is_no_variant id :
  ("dvm_template_entry" ∉ AnyVMRow.style_context (AnyVMRow.__init__ id)) ∧
  ("dispvm_entry" ∉ AnyVMRow.style_context (AnyVMRow.__init__ id)).
Proof. simpl. set_solver. Qed.

(** The styling relies on the template flag staying as it is: [update_style]
    adds the class of one variant without removing that of the other, so a
    row whose entry stops being a template and gets a parent would carry
    both. *)
Lemma both_classes_if_the_flag_changed c id e e' :
  is_dispvm_template e = true →
  is_dispvm_template e' = false →
  truthy (parent_vm e') = true →
  ∃ w0, __init__ c id e = Ok w0 ∧
        let w := update_style false (acts [entry_changed e'] w0) in
        "dvm_template_entry" ∈ style_context (row w) ∧
        "dispvm_entry" ∈ style_context (row w).
Proof.
  intros He He' Hparent.
  destruct (init_ok c id e) as (w0 & Hrun & _ & _ & Hstyle & _).
  exists w0. split; [done|]. simpl.
  unfold update_style at 1 2. simpl. rewrite He', Hparent. simpl.
  rewrite Hstyle. unfold update_style. simpl. rewrite He.
  destruct c; simpl; try destruct (String.eqb (power_state e) "Running"); simpl;
    set_solver.
Qed.

End Rows.

Lemma running_vm_class_iff_running_witness :
  ∃ w', @VMRow.update_contents Examples.icons_by_name true false false false
          {| VMRow.vm_entry := Examples.disp1_halted;
             VMRow.row :=
               @VMRow.add_class Examples.icons_by_name "running_vm"
                 (@VMRow.HoverListBox__init__ Examples.icons_by_name VMRow.VMRow_cls 0);
             VMRow.parent := None |} = Ok w' ∧
        power_state (VMRow.vm_entry w') = "Halted" ∧
        "running_vm" ∉ VMRow.style_context (VMRow.row w').
Proof.
  destruct (@running_vm_class_iff_running Examples.icons_by_name false false false
              {| VMRow.vm_entry := Examples.disp1_halted;
                 VMRow.row :=
                   @VMRow.add_class Examples.icons_by_name "running_vm"
                     (@VMRow.HoverListBox__init__ Examples.icons_by_name VMRow.VMRow_cls 0);
                 VMRow.parent := None |})
    as (w' & Hrun & Hentry & _ & Hhalted & _).
  exists w'. split; [exact Hrun|]. rewrite Hentry.
  split; [reflexivity|]. apply Hhalted. rewrite Hentry. reflexivity.
Defined.

Lemma missing_parent_is_no_parent_witness :
  truthy (parent_vm Examples.work) = false ∧
  ∃ w, @VMRow.__init__ Examples.icons_by_name VMRow.VMRow_cls 0 Examples.work = Ok w ∧
       VMRow.dispvm_icon (VMRow.row w) = None ∧
       ("dispvm_icon" ∉ VMRow.main_box (VMRow.row w)) ∧
       ("dispvm_entry" ∉ VMRow.style_context (VMRow.row w)).
Proof.
  split; [reflexivity|].
  destruct (@missing_parent_is_no_parent Examples.icons_by_name VMRow.VMRow_cls 0
              Examples.work) as (w & Hrun & _ & _ & Hnone).
  exists w. split; [exact Hrun|]. apply Hnone. reflexivity.
Defined.

Lemma style_follows_variant_witness :
  ∃ w0, @VMRow.__init__ Examples.icons_by_name VMRow.VMRow_cls 0 Examples.disp1 = Ok w0 ∧
        VMRow.style_matches_variant w0 ∧
        VMRow.style_matches_variant
          (VMRow.update_style true
             (VMRow.acts [VMRow.entry_changed Examples.disp1_halted;
                          VMRow.call_update_style true;
                          VMRow.entry_changed Examples.work] w0)).
Proof.
  eexists. split; [vm_compute; reflexivity|].
  apply (@style_follows_variant Examples.icons_by_name VMRow.VMRow_cls 0 Examples.disp1).
  - vm_compute. reflexivity.
  - simpl. repeat constructor.
Defined.

Lemma update_contents_frame_witness :
  ∃ w', @VMRow.update_contents Examples.icons_by_name false false false false
          {| VMRow.vm_entry := Examples.disp1;
             VMRow.row := @VMRow.HoverListBox__init__ Examples.icons_by_name VMRow.VMRow_cls 0;
             VMRow.parent :=
               Some {| Gtk.selected_row := Some 0%nat; Gtk.sort_invalidations := 0;
                       Gtk.filter_invalidations := 0; Gtk.select_row_calls := [] |} |}
        = Ok w' ∧
        VMRow.parent w'
        = Some {| Gtk.selected_row := Some 0%nat; Gtk.sort_invalidations := 0;
                  Gtk.filter_invalidations := 0; Gtk.select_row_calls := [] |}.
Proof.
  destruct (proj2 (proj2 (proj2 (@update_contents_frame Examples.icons_by_name)))
              {| VMRow.vm_entry := Examples.disp1;
                 VMRow.row :=
                   @VMRow.HoverListBox__init__ Examples.icons_by_name VMRow.VMRow_cls 0;
                 VMRow.parent :=
                   Some {| Gtk.selected_row := Some 0%nat; Gtk.sort_invalidations := 0;
                           Gtk.filter_invalidations := 0; Gtk.select_row_calls := [] |} |})
    as (w' & Hrun & _ & _ & _ & Hparent).
  exists w'. split; [exact Hrun|exact Hparent].
Defined.

(** ** The application object *)

Section Application.
Import AppMenu.

Lemma get_object_loaded (loaded : gset string) name :
  name ∈ loaded → get_object loaded name = Some name.
Proof. intros Hin. unfold get_object. by rewrite decide_True. Qed.

Lemma get_object_empty name : get_object ∅ name = None.
Proof. unfold get_object. rewrite decide_False; [done|set_solver]. Qed.

(** With the widgets in the glade file, [perform_setup] returns, and this is
    the state it leaves: seven new objects, the builder first. *)
Lemma perform_setup_ok env w :
  glade_complete env →
  let n := length (objects w) in
  let q := qapp (app w) in
  let d := dispatcher (app w) in
  perform_setup env w =
  Ok {| app :=
          {| qapp := q; dispatcher := d; primary := primary (app w);
             keep_visible := keep_visible (app w); initial_page := initial_page (app w);
             start_in_background := start_in_background (app w);
             builder := Some n;
             main_window :=
               Some {| win_visible := false;
                       win_events := ["FOCUS_CHANGE_MASK"; "KEY_PRESS_MASK"];
                       win_connected :=
                         [("focus-out-event", "_focus_out");
                          ("key_press_event", "_key_press");
                          ("key_press_event", "_key_pressed")] |};
             main_notebook :=
               Some {| current_page := None;
                       nb_connected := [("switch-page", "_handle_page_switch")] |};
             fav_app_list := None; sys_tools_list := None;
             desktop_file_manager := Some (n + 1)%nat; vm_manager := Some (n + 2)%nat;
             handlers :=
               [("search_page", (n + 3)%nat); ("app_page", (n + 4)%nat);
                ("favorites_page", (n + 5)%nat); ("settings_page", (n + 6)%nat)];
             power_button := Some [("clicked", "_do_power_button")];
             highlight_tag := Some (theme_highlight_tag env);
             tasks := tasks (app w) |};
        objects :=
          objects w ++
          [Builder; DesktopFileManager q; VMManager q d;
           SearchPage (n + 2) n (n + 1); AppPage (n + 2) n (n + 1);
           FavoritesPage q n (n + 1) d (n + 2); SettingsPage q n (n + 1) d];
        menus := menus w;
        log := log w |}.
Proof.
  intros (Hwin & Hnb & Hbutton) n q d. unfold perform_setup, new.
  rewrite (get_object_loaded (glade env) "main_window") by done.
  rewrite (get_object_loaded (glade env) "main_notebook") by done.
  rewrite (get_object_loaded (glade env) "power_button") by done.
  rewrite !get_object_empty. simpl.
  rewrite !length_app. simpl. rewrite <- !app_assoc. simpl.
  fold n q d. unfold win_connect. simpl.
  replace (n + 1 + 1 + 1 + 1 + 1 + 1)%nat with (n + 6)%nat by lia.
  replace (n + 1 + 1 + 1 + 1 + 1)%nat with (n + 5)%nat by lia.
  replace (n + 1 + 1 + 1 + 1)%nat with (n + 4)%nat by lia.
  replace (n + 1 + 1 + 1)%nat with (n + 3)%nat by lia.
  replace (n + 1 + 1)%nat with (n + 2)%nat by lia.
  reflexivity.
Qed.

Lemma lookup_created (h created : heap) i :
  (h ++ created) !! (length h + i)%nat = created !! i.
Proof.
  rewrite lookup_app_r by lia. f_equal. lia.
Qed.

(** C8. [perform_setup] constructs exactly one [DesktopFileManager] and
    exactly one [VMManager], keeps them as attributes of the application, and
    registers four page handlers, each of which was constructed with that
    desktop-file manager and, unless it is the settings page, which takes
    none, with that VM manager.  No further model object is constructed for
    any page. *)
Theorem pages_share_one_model env w :
  glade_complete env →
  ∃ w' created dfm vmm,
    perform_setup env w = Ok w' ∧
    objects w' = objects w ++ created ∧
    count is_DesktopFileManager created = 1%nat ∧
    count is_VMManager created = 1%nat ∧
    desktop_file_manager (app w') = Some dfm ∧
    vm_manager (app w') = Some vmm ∧
    objects w' !! dfm = Some (DesktopFileManager (qapp (app w))) ∧
    objects w' !! vmm = Some (VMManager (qapp (app w)) (dispatcher (app w))) ∧
    (handlers (app w')).*1 = ["search_page"; "app_page"; "favorites_page"; "settings_page"] ∧
    ∀ name page, (name, page) ∈ handlers (app w') →
      ∃ o, objects w' !! page = Some o ∧
           is_page o = true ∧
           page_desktop_file_manager o = Some dfm ∧
           page_vm_manager o = (if String.eqb name "settings_page" then None else Some vmm).
Proof.
  intros Hglade. pose proof (perform_setup_ok env w Hglade) as Hrun. simpl in Hrun.
  set (n := length (objects w)) in *.
  eexists _, _, (n + 1)%nat, (n + 2)%nat. split; [exact Hrun|]. subst n. simpl.
  split; [reflexivity|]. split; [reflexivity|]. split; [reflexivity|].
  split; [reflexivity|]. split; [reflexivity|].
  split; [by rewrite lookup_created|]. split; [by rewrite lookup_created|].
  split; [reflexivity|].
  intros name page Hin.
  rewrite !elem_of_cons, elem_of_nil in Hin.
  destruct Hin as [[= -> ->]|[[= -> ->]|[[= -> ->]|[[= -> ->]|[]]]]];
    rewrite lookup_created; simpl; eexists; repeat split; reflexivity.
Qed.

Lemma same_setup_refl w : same_setup w w.
Proof. by repeat split. Qed.

Lemma same_setup_trans w1 w2 w3 : same_setup w1 w2 → same_setup w2 w3 → same_setup w1 w3.
Proof. unfold same_setup. intros H12 H23. intuition congruence. Qed.

Lemma count_app p (h1 h2 : heap) : count p (h1 ++ h2) = (count p h1 + count p h2)%nat.
Proof. unfold count. rewrite <- length_app. f_equal. apply filter_app. Qed.

(** The first activation: setup, then the listener. *)
Lemma do_activate_first env w :
  primary (app w) = false →
  glade_complete env →
  ∃ ws w1,
    perform_setup env w = Ok ws ∧
    do_activate env w
    = Ok (w1, match listener env with asyncio.PENDING => in_event_loop | _ => returned end) ∧
    primary (app w1) = true ∧
    keep_visible (app w1) = keep_visible (app w) ∧
    same_setup ws w1 ∧
    count is_Builder (objects w1) = S (count is_Builder (objects w)) ∧
    is_Some (main_notebook (app w1)) ∧
    is_Some (main_window (app w1)) ∧
    tasks (app w1)
    = [asyncio.ensure_future "dispatcher.listen_for_events" (listener env)].
Proof.
  intros Hprimary Hglade. pose proof (perform_setup_ok env w Hglade) as Hsetup.
  simpl in Hsetup. unfold do_activate. rewrite Hprimary, Hsetup.
  destruct (start_in_background (app w)) eqn:Hbackground;
    destruct (9 * screen_height env <? 10 * allocated_height env) eqn:Hheight;
    destruct (listener env) eqn:Hlistener;
    simpl; rewrite ?Hbackground, ?Hheight; simpl;
    (eexists _, _; split; [reflexivity|]; split; [reflexivity|]; simpl;
     split; [reflexivity|]; split; [reflexivity|];
     split; [by repeat split|];
     split; [by rewrite count_app; simpl; unfold count; simpl; lia|];
     split; [by eexists|]; split; [by eexists|]; reflexivity).
Qed.

(** A later activation: the page of the notebook is set and the window is
    hidden or presented; nothing else changes. *)
Lemma do_activate_again env w nb win :
  primary (app w) = true →
  main_notebook (app w) = Some nb →
  main_window (app w) = Some win →
  do_activate env w =
  Ok ({| app :=
           set_window
             (win_set_visible (negb (win_visible win && negb (keep_visible (app w)))) win)
             (set_notebook
                {| current_page := Some (initial_page (app w));
                   nb_connected := nb_connected nb |}
                (app w));
         objects := objects w;
         menus := menus w;
         log := log w ++ [set_current_page (initial_page (app w));
                          if win_visible win && negb (keep_visible (app w))
                          then hide else present] |},
      returned).
Proof.
  intros Hprimary Hnb Hwin. unfold do_activate. rewrite Hprimary, Hnb. simpl.
  rewrite Hwin.
  destruct (win_visible win && negb (keep_visible (app w))); simpl;
    unfold window_hide, window_present, notebook_set_current_page, emit, with_app;
    simpl; by rewrite <- app_assoc.
Qed.

(** Activations of a primary instance keep it primary and keep its setup. *)
Lemma activations_again env n : ∀ w,
  primary (app w) = true →
  is_Some (main_notebook (app w)) →
  is_Some (main_window (app w)) →
  ∃ wn, activations env n w = Ok wn ∧
        primary (app wn) = true ∧
        keep_visible (app wn) = keep_visible (app w) ∧
        tasks (app wn) = tasks (app w) ∧
        same_setup w wn ∧
        is_Some (main_notebook (app wn)) ∧
        is_Some (main_window (app wn)).
Proof.
  induction n as [|n IH]; intros w Hprimary [nb Hnb] [win Hwin].
  - exists w. repeat split; try done; by eexists.
  - simpl. rewrite (do_activate_again env w nb win) by done. simpl.
    match goal with
    | |- context [activations env n ?w'] =>
        destruct (IH w') as (wn & Hrun & Hp & Hk & Ht & Hsame & Hnb' & Hwin');
          [done|by eexists|by eexists|]
    end.
    exists wn. simpl in *.
    split; [done|]. split; [done|]. split; [done|]. split; [done|].
    split; [|done].
    eapply same_setup_trans; [|exact Hsame].
    repeat split; simpl; try done.
    + by rewrite Hwin.
    + by rewrite Hnb.
Qed.

(** C10, as the code has it.  On one application object, the first
    activation runs [perform_setup] and sets [primary].  However many
    activations follow, the instance stays primary and the objects and
    connections of the setup stay as they were: there is one builder more
    than before the first activation, never two.  Each further activation
    does no setup; it only sets the page of the notebook and hides the window
    when it is visible and [keep_visible] is off, and presents it otherwise.
    With [keep_visible] off this toggles the window between hidden and
    presented. *)
Theorem setup_runs_once env w0 :
  primary (app w0) = false →
  glade_complete env →
  ∃ ws w1 c,
    perform_setup env w0 = Ok ws ∧
    do_activate env w0 = Ok (w1, c) ∧
    primary (app w1) = true ∧
    same_setup ws w1 ∧
    count is_Builder (objects w1) = S (count is_Builder (objects w0)) ∧
    ∀ n, ∃ wn,
      activations env n w1 = Ok wn ∧
      primary (app wn) = true ∧
      same_setup ws wn ∧
      count is_Builder (objects wn) = S (count is_Builder (objects w0)) ∧
      ∃ nb win w',
        main_notebook (app wn) = Some nb ∧
        main_window (app wn) = Some win ∧
        do_activate env wn = Ok (w', returned) ∧
        w' = {| app :=
                  set_window
                    (win_set_visible
                       (negb (win_visible win && negb (keep_visible (app wn)))) win)
                    (set_notebook
                       {| current_page := Some (initial_page (app wn));
                          nb_connected := nb_connected nb |}
                       (app wn));
                objects := objects wn;
                menus := menus wn;
                log := log wn ++ [set_current_page (initial_page (app wn));
                                  if win_visible win && negb (keep_visible (app wn))
                                  then hide else present] |} ∧
        (keep_visible (app wn) = false →
         win_visible <$> main_window (app w') = Some (negb (win_visible win))).
Proof.
  intros Hprimary Hglade.
  destruct (do_activate_first env w0 Hprimary Hglade)
    as (ws & w1 & Hsetup & Hrun & Hp1 & _ & Hsame & Hcount & Hnb & Hwin & _).
  eexists ws, w1, _. split; [done|]. split; [exact Hrun|].
  split; [done|]. split; [done|]. split; [done|].
  intros n.
  destruct (activations_again env n w1 Hp1 Hnb Hwin)
    as (wn & Hrunn & Hpn & _ & _ & Hsamen & [nb Hnbn] & [win Hwinn]).
  exists wn. split; [done|]. split; [done|].
  split; [by eapply same_setup_trans|].
  split; [destruct Hsamen as [-> _]; done|].
  eexists nb, win, _. split; [done|]. split; [done|].
  split; [by apply do_activate_again|]. split; [reflexivity|].
  intros Hkeep. simpl. rewrite Hkeep. simpl. by rewrite andb_true_r.
Qed.

(** C10, as stated, with every later activation toggling the window, fails
    on an instance started with [-k]: the window is visible after the first
    activation and the second one presents it, so it is visible still. *)
Lemma activation_with_keep_visible_does_not_toggle :
  ∃ w1 w2,
    do_command_line (Examples.desktop asyncio.PENDING) Examples.keep_visible_option
      (start 0 1) = Ok (w1, in_event_loop) ∧
    primary (app w1) = true ∧
    do_activate (Examples.desktop asyncio.PENDING) w1 = Ok (w2, returned) ∧
    win_visible <$> main_window (app w1) = Some true ∧
    win_visible <$> main_window (app w2) = Some true ∧
    ¬ toggles_window w1 w2.
Proof.
  eexists _, _. split; [vm_compute; reflexivity|]. split; [reflexivity|].
  split; [vm_compute; reflexivity|]. split; [reflexivity|]. split; [reflexivity|].
  unfold toggles_window. simpl. discriminate.
Qed.

(** C2, as the code has it.  The first activation starts exactly one task,
    the listener, and waits for it: while the listener is pending, control
    stays in the event loop.  When the listener raises, the wait is over and
    [do_activate] returns to its caller in the normal way; the exception is
    not raised again but stays stored in the task kept in [tasks].  Later
    activations leave [tasks] alone: the listener is not started again. *)
Theorem listener_failure_ends_the_wait env w0 :
  primary (app w0) = false →
  glade_complete env →
  ∃ w1 c,
    do_activate env w0 = Ok (w1, c) ∧
    tasks (app w1) = [asyncio.ensure_future "dispatcher.listen_for_events" (listener env)] ∧
    (c = in_event_loop ↔ listener env = asyncio.PENDING) ∧
    (∀ e, listener env = asyncio.FAILED e →
          c = returned ∧ asyncio.exception <$> tasks (app w1) = [Some e]) ∧
    (∀ n, ∃ wn, activations env n w1 = Ok wn ∧ tasks (app wn) = tasks (app w1)).
Proof.
  intros Hprimary Hglade.
  destruct (do_activate_first env w0 Hprimary Hglade)
    as (ws & w1 & _ & Hrun & Hp1 & _ & _ & _ & Hnb & Hwin & Htasks).
  eexists w1, _. split; [exact Hrun|]. split; [done|]. split; [|split].
  - destruct (listener env); split; intros; congruence.
  - intros e He. rewrite Htasks, He. done.
  - intros n.
    destruct (activations_again env n w1 Hp1 Hnb Hwin) as (wn & Hrunn & _ & _ & Ht & _).
    by exists wn.
Qed.

(** C2, as stated, fails: on a desktop whose listener ends with a lost
    connection, [do_activate] does not raise that exception. *)
Lemma listener_failure_does_not_propagate :
  ¬ failure_propagates
      (Examples.desktop (asyncio.FAILED (ConnectionLost "event bus closed")))
      (start 0 1).
Proof.
  intros Hpropagates.
  specialize (Hpropagates (ConnectionLost "event bus closed") eq_refl).
  vm_compute in Hpropagates. discriminate.
Qed.

(** [hide_menu] on an application that has its search page and its window. *)
Lemma hide_menu_ok w page win :
  getitem (handlers (app w)) "search_page" = Ok page →
  main_window (app w) = Some win →
  hide_menu w =
  Ok (if keep_visible (app w) then emit (initialize_page page) w
      else window_hide win (emit (initialize_page page) w)).
Proof.
  intros Hpage Hwin. unfold hide_menu. rewrite Hpage. simpl. rewrite Hwin.
  by destruct (keep_visible (app w)).
Qed.

(** C9. While [OPEN_MENUS] is positive, [_focus_out] changes nothing: the
    window is not hidden.  When it is zero or less, [_focus_out] does what
    [hide_menu] does: on an application that is set up, it first resets the
    search page and then hides the window exactly when [keep_visible] is
    off. *)
Theorem focus_out_hides_unless_menu_open :
  (∀ w, 0 < SelfAwareMenu.OPEN_MENUS (menus w) → _focus_out w = Ok w) ∧
  (∀ w page win,
     getitem (handlers (app w)) "search_page" = Ok page →
     main_window (app w) = Some win →
     SelfAwareMenu.OPEN_MENUS (menus w) ≤ 0 →
     ∃ w', _focus_out w = Ok w' ∧
           hide_menu w = Ok w' ∧
           log w' = log w ++ initialize_page page ::
                      (if keep_visible (app w) then [] else [hide]) ∧
           main_window (app w')
           = Some (if keep_visible (app w) then win else win_set_visible false win) ∧
           (hide ∈ drop (length (log w)) (log w') ↔ keep_visible (app w) = false)).
Proof.
  split.
  - intros w Hopen. unfold _focus_out.
    destruct (Z.leb_spec (SelfAwareMenu.OPEN_MENUS (menus w)) 0); [lia|done].
  - intros w page win Hpage Hwin Hnone. unfold _focus_out.
    destruct (Z.leb_spec (SelfAwareMenu.OPEN_MENUS (menus w)) 0); [|lia].
    rewrite (hide_menu_ok w page win Hpage Hwin).
    eexists. split; [reflexivity|]. split; [reflexivity|].
    destruct (keep_visible (app w)); simpl.
    + split; [done|]. split; [done|].
      rewrite drop_app_length. split; [|done].
      rewrite elem_of_cons, elem_of_nil. intros [[=]|[]].
    + split; [by rewrite <- app_assoc|]. split; [done|].
      rewrite <- app_assoc, drop_app_length. split; [done|].
      intros _. set_solver.
Qed.

End Application.

Lemma pages_share_one_model_witness :
  ∃ w' created,
    AppMenu.perform_setup (Examples.desktop asyncio.PENDING) (AppMenu.start 0 1) = Ok w' ∧
    AppMenu.objects w' = AppMenu.objects (AppMenu.start 0 1) ++ created ∧
    AppMenu.count AppMenu.is_DesktopFileManager created = 1%nat ∧
    AppMenu.count AppMenu.is_VMManager created = 1%nat.
Proof.
  destruct (pages_share_one_model (Examples.desktop asyncio.PENDING) (AppMenu.start 0 1))
    as (w' & created & dfm & vmm & Hrun & Hobjects & Hdfm & Hvmm & _).
  { unfold AppMenu.glade_complete. simpl. set_solver. }
  exists w', created. auto.
Defined.

Lemma setup_runs_once_witness :
  ∃ ws w1 c,
    AppMenu.perform_setup (Examples.desktop asyncio.PENDING) (AppMenu.start 0 1) = Ok ws ∧
    AppMenu.do_activate (Examples.desktop asyncio.PENDING) (AppMenu.start 0 1) = Ok (w1, c) ∧
    AppMenu.primary (AppMenu.app w1) = true ∧
    ∃ w3, AppMenu.activations (Examples.desktop asyncio.PENDING) 2 w1 = Ok w3 ∧
          AppMenu.count AppMenu.is_Builder (AppMenu.objects w3) = 1%nat.
Proof.
  destruct (setup_runs_once (Examples.desktop asyncio.PENDING) (AppMenu.start 0 1))
    as (ws & w1 & c & Hsetup & Hrun & Hprimary & _ & _ & Hlater).
  - reflexivity.
  - unfold AppMenu.glade_complete. simpl. set_solver.
  - exists ws, w1, c. split; [exact Hsetup|]. split; [exact Hrun|].
    split; [exact Hprimary|].
    destruct (Hlater 2%nat) as (w3 & Hrun3 & _ & _ & Hcount & _).
    exists w3. split; [exact Hrun3|exact Hcount].
Defined.

Lemma listener_failure_ends_the_wait_witness :
  let env := Examples.desktop (asyncio.FAILED (ConnectionLost "event bus closed")) in
  ∃ w1,
    AppMenu.do_activate env (AppMenu.start 0 1) = Ok (w1, AppMenu.returned) ∧
    asyncio.exception <$> AppMenu.tasks (AppMenu.app w1)
    = [Some (ConnectionLost "event bus closed")].
Proof.
  intros env.
  destruct (listener_failure_ends_the_wait env (AppMenu.start 0 1))
    as (w1 & c & Hrun & _ & _ & Hfailed & _).
  - reflexivity.
  - unfold AppMenu.glade_complete. simpl. set_solver.
  - destruct (Hfailed (ConnectionLost "event bus closed") eq_refl) as [-> Hexception].
    exists w1. split; [exact Hrun|exact Hexception].
Defined.

Lemma focus_out_hides_unless_menu_open_witness :
  ∃ w w',
    AppMenu.perform_setup (Examples.desktop asyncio.PENDING) (AppMenu.start 0 1) = Ok w ∧
    AppMenu._focus_out w = Ok w' ∧
    AppMenu.log w' = [AppMenu.initialize_page 3; AppMenu.hide].
Proof.
  assert (Hglade : AppMenu.glade_complete (Examples.desktop asyncio.PENDING)).
  { unfold AppMenu.glade_complete. simpl. set_solver. }
  pose proof (perform_setup_ok _ (AppMenu.start 0 1) Hglade) as Hsetup.
  simpl in Hsetup.
  match type of Hsetup with
  | _ = Ok ?w =>
      edestruct (proj2 focus_out_hides_unless_menu_open w 3%nat _ eq_refl eq_refl)
        as (w' & Hfocus & _ & Hlog & _);
        [simpl; lia|exists w, w'; split; [exact Hsetup|split; [exact Hfocus|exact Hlog]]]
  end.
Defined.

(** * Further properties of the widgets *)

(** ** The counter of open menus, on any trace *)

Section Counter.
Import SelfAwareMenu.

Lemma realizes_cons e tr :
  realizes (e :: tr) = ((if is_realize e then 1 else 0) + realizes tr)%nat.
Proof.
  unfold realizes. by destruct e.
Qed.

Lemma deactivations_cons e tr :
  deactivations (e :: tr) = ((if is_realize e then 0 else 1) + deactivations tr)%nat.
Proof.
  unfold deactivations. by destruct e.
Qed.

Lemma run_counter tr : ∀ c,
  OPEN_MENUS (run tr c)
  = OPEN_MENUS c + Z.of_nat (realizes tr) - Z.of_nat (deactivations tr).
Proof.
  induction tr as [|e tr IH]; intros c.
  - unfold realizes, deactivations. simpl. lia.
  - change (run (e :: tr) c) with (run tr (step c e)).
    rewrite IH, realizes_cons, deactivations_cons.
    destruct e; [rewrite step_realize|rewrite step_deactivate]; simpl; lia.
Qed.

(** The counter is the balance of the events: whatever the order and
    whichever menus they come from, it stands at the number of [realize]
    events minus the number of [deactivate] events; so it is negative exactly
    when more menus were deactivated than realized. *)
Theorem counter_is_balance_of_events tr :
  OPEN_MENUS (run tr class_body)
  = Z.of_nat (realizes tr) - Z.of_nat (deactivations tr) ∧
  (OPEN_MENUS (run tr class_body) < 0 ↔ (realizes tr < deactivations tr)%nat).
Proof.
  rewrite run_counter. simpl. split; lia.
Qed.

(** Focus-out and popup menus together: after a well-formed trace of menu
    events, the main window ignores a focus-out exactly while some menu is
    open, and treats it as [hide_menu] once all are closed. *)
Theorem focus_out_waits_for_open_menus tr (w : AppMenu.World) :
  well_formed tr = true →
  AppMenu.menus w = run tr class_body →
  (open_menus tr ≠ ∅ → AppMenu._focus_out w = Ok w) ∧
  (open_menus tr = ∅ → AppMenu._focus_out w = AppMenu.hide_menu w).
Proof.
  intros Hwf Hmenus.
  assert (Hcount : OPEN_MENUS (AppMenu.menus w) = Z.of_nat (size (open_menus tr))).
  { rewrite Hmenus. apply run_counts_from; [done|]. by rewrite size_empty. }
  unfold AppMenu._focus_out. rewrite Hcount. split.
  - intros Hopen.
    assert (size (open_menus tr) ≠ 0%nat) by (by rewrite size_empty_iff; intros ?%leibniz_equiv).
    destruct (Z.leb_spec (Z.of_nat (size (open_menus tr))) 0); [lia|done].
  - intros ->. by rewrite size_empty.
Qed.

End Counter.

Lemma focus_out_waits_for_open_menus_witness :
  let tr := [SelfAwareMenu.realize 7] in
  let w := {| AppMenu.app := AppMenu.__init__ 0 1; AppMenu.objects := [];
              AppMenu.menus := SelfAwareMenu.run tr SelfAwareMenu.class_body;
              AppMenu.log := [] |} in
  AppMenu._focus_out w = Ok w.
Proof.
  intros tr w.
  apply (proj1 (focus_out_waits_for_open_menus tr w eq_refl eq_refl)).
  vm_compute. discriminate.
Defined.

(** ** Hovering *)

Section Hover.
Import HoverEventBox.

Lemma count_of_cons e e' tr :
  count_of e (e' :: tr) = ((if decide (e' = e) then 1 else 0) + count_of e tr)%nat.
Proof. unfold count_of. rewrite filter_cons. by case_decide. Qed.

(** Once the pointer has left, and as long as it does not come back, the box
    never takes the focus: each timeout that expires is removed and does
    nothing else. *)
Theorem no_focus_grab_after_leave tr : ∀ w,
  mouse (box w) = false →
  count_of enter tr = 0%nat →
  grabbed (run tr w) = grabbed w ∧
  timeouts (run tr w) = (timeouts w - count_of timeout tr)%nat ∧
  mouse (box (run tr w)) = false.
Proof.
  induction tr as [|e tr IH]; intros w Hout Henter.
  - unfold count_of. simpl. split; [done|]. split; [lia|done].
  - rewrite count_of_cons in Henter. rewrite count_of_cons.
    change (run (e :: tr) w) with (run tr (step w e)).
    destruct e; repeat case_decide; try congruence; try lia; simpl in *.
    + destruct (IH (_leave_event w)) as (Hg & Ht & Hm); [done|lia|].
      repeat split; [done| |done]. by rewrite Ht.
    + assert (Hstep : timeout_expires w
                      = {| box := box w; timeouts := pred (timeouts w);
                           grabbed := grabbed w |}).
      { unfold timeout_expires, _select_me. rewrite Hout. simpl.
        destruct w as [b [|n] g]; reflexivity. }
      rewrite Hstep. destruct (IH {| box := box w; timeouts := pred (timeouts w);
                                    grabbed := grabbed w |}) as (Hg & Ht & Hm);
        [done|lia|].
      repeat split; [done| |done]. rewrite Ht. simpl. lia.
Qed.

Lemma no_focus_grab_after_leave_witness :
  let w := {| box := __init__ 3; timeouts := 2; grabbed := [] |} in
  grabbed (run [timeout; leave; timeout; timeout] w) = [] ∧
  timeouts (run [timeout; leave; timeout; timeout] w) = 0%nat.
Proof.
  intros w.
  destruct (no_focus_grab_after_leave [timeout; leave; timeout; timeout] w)
    as (Hg & Ht & _); [reflexivity|reflexivity|].
  split; [exact Hg|exact Ht].
Defined.

(** While the pointer stays inside, no timeout is ever removed: every enter
    event arms one more, and every expiry gives the focus to the widget
    again. *)
Theorem timeouts_stack_while_inside tr : ∀ w,
  mouse (box w) = true →
  count_of leave tr = 0%nat →
  (0 < timeouts w)%nat →
  timeouts (run tr w) = (timeouts w + count_of enter tr)%nat ∧
  grabbed (run tr w)
  = grabbed w ++ replicate (count_of timeout tr) (focus_widget (box w)).
Proof.
  induction tr as [|e tr IH]; intros w Hin Hleave Hpos.
  - unfold count_of. simpl. split; [lia|by rewrite app_nil_r].
  - rewrite count_of_cons in Hleave. rewrite !count_of_cons.
    change (run (e :: tr) w) with (run tr (step w e)).
    destruct e; repeat case_decide; try congruence; try lia; simpl in *.
    + destruct (IH (_enter_event w)) as (Ht & Hg); [done|lia|simpl; lia|].
      split; [rewrite Ht; simpl; lia|]. by rewrite Hg.
    + assert (Hstep : timeout_expires w
                      = {| box := box w; timeouts := timeouts w;
                           grabbed := grabbed w ++ [focus_widget (box w)] |}).
      { unfold timeout_expires, _select_me. rewrite Hin. simpl.
        destruct (timeouts w); [lia|done]. }
      rewrite Hstep.
      destruct (IH {| box := box w; timeouts := timeouts w;
                      grabbed := grabbed w ++ [focus_widget (box w)] |}) as (Ht & Hg);
        [done|lia|done|].
      split; [rewrite Ht; simpl; lia|]. rewrite Hg. simpl. by rewrite <- app_assoc.
Qed.

Lemma timeouts_stack_while_inside_witness :
  let w := _enter_event {| box := __init__ 3; timeouts := 0; grabbed := [] |} in
  timeouts (run [timeout; enter; timeout] w) = 2%nat ∧
  grabbed (run [timeout; enter; timeout] w) = [3%nat; 3%nat].
Proof.
  intros w.
  destruct (timeouts_stack_while_inside [timeout; enter; timeout] w)
    as (Ht & Hg); [reflexivity|reflexivity|simpl; lia|].
  split; [exact Ht|exact Hg].
Defined.

End Hover.

(** ** The network indicator under [show_all] *)

Section Indicator.
Context `{IconLoader}.
Import NetworkIndicator.

Lemma life_snoc cs c : life (cs ++ [c]) = receive (life cs) c.
Proof. unfold life. by rewrite foldl_app. Qed.

Lemma latest_state_snoc cs c :
  latest_state (cs ++ [c])
  = match c with call_set_network_state b => Some b | call_show_all => latest_state cs end.
Proof. unfold latest_state. by rewrite foldl_app. Qed.

(** Neither image is shown before [set_network_state] is called, whatever
    [show_all] calls reach the box: [__init__] marks both [no_show_all] and
    nothing unmarks them.  Afterwards exactly the image of the latest state
    is shown, and [show_all] does not bring the other one back. *)
Theorem images_follow_latest_state cs :
  Gtk.img_visible (network_on (life cs))
  = (if latest_state cs is Some true then true else false) ∧
  Gtk.img_visible (network_off (life cs))
  = (if latest_state cs is Some false then true else false).
Proof.
  cut (Gtk.no_show_all (network_on (life cs)) = true ∧
       Gtk.no_show_all (network_off (life cs)) = true ∧
       Gtk.img_visible (network_on (life cs))
       = (if latest_state cs is Some true then true else false) ∧
       Gtk.img_visible (network_off (life cs))
       = (if latest_state cs is Some false then true else false)).
  { tauto. }
  induction cs as [|c cs IH] using rev_ind; [done|].
  destruct IH as (Hon & Hoff & Hvon & Hvoff).
  rewrite life_snoc, latest_state_snoc.
  destruct c as [|[]]; simpl; unfold Gtk.img_show_all; rewrite ?Hon, ?Hoff; done.
Qed.

End Indicator.

(** ** Rows and the list they are packed in *)

Section RowsInLists.
Context `{IconLoader}.
Import VMRow.

Lemma update_contents_row_id ups ulab unet utype w w' :
  update_contents ups ulab unet utype w = Ok w' → row_id (row w') = row_id (row w).
Proof.
  destruct w as [e r p]. unfold update_contents, is_selected, parent_call, get_parent.
  destruct ulab; simpl.
  all: destruct (utype || ups); simpl; rewrite ?update_style_parent; simpl.
  all: destruct p as [lb|]; simpl; rewrite ?update_style_parent; simpl.
  all: destruct unet; simpl; try destruct (bool_decide (Gtk.selected_row _ = _)); simpl.
  all: intros [= <-]; simpl; by rewrite ?update_style_row_id.
Qed.

(** An update of type or power state leaves the list without a selection:
    sorting and filtering are invalidated once each and [select_row(None)] is
    the one selection call, also when the network flag is set with it, since
    by then the row is not selected any more. *)
Theorem type_or_power_update_clears_selection ups ulab unet utype w lb :
  utype || ups = true →
  parent w = Some lb →
  ∃ w', update_contents ups ulab unet utype w = Ok w' ∧
        parent w'
        = Some {| Gtk.selected_row := None;
                  Gtk.sort_invalidations := S (Gtk.sort_invalidations lb);
                  Gtk.filter_invalidations := S (Gtk.filter_invalidations lb);
                  Gtk.select_row_calls := Gtk.select_row_calls lb ++ [None] |} ∧
        is_selected w' = false.
Proof.
  intros Hflags Hparent.
  destruct (update_contents_ok ups ulab unet utype w) as (w' & Hrun & _).
  exists w'. split; [done|].
  pose proof (update_contents_parent _ _ _ _ _ _ Hrun) as Hp.
  rewrite Hflags, Hparent in Hp. simpl in Hp.
  rewrite andb_false_r in Hp. split; [done|].
  unfold is_selected, get_parent. by rewrite Hp.
Qed.

(** A network update alone re-announces the selection: on the selected row it
    calls [select_row(None)] and then [select_row(self)], after which the row
    is selected as before; on any other row it makes no call at all. *)
Theorem network_update_reselects_selected_row ulab w lb :
  parent w = Some lb →
  ∃ w', update_contents false ulab true false w = Ok w' ∧
        parent w'
        = Some (if bool_decide (Gtk.selected_row lb = Some (row_id (row w))) then
                  {| Gtk.selected_row := Some (row_id (row w));
                     Gtk.sort_invalidations := Gtk.sort_invalidations lb;
                     Gtk.filter_invalidations := Gtk.filter_invalidations lb;
                     Gtk.select_row_calls :=
                       Gtk.select_row_calls lb ++ [None; Some (row_id (row w))] |}
                else lb).
Proof.
  intros Hparent.
  destruct (update_contents_ok false ulab true false w) as (w' & Hrun & _).
  exists w'. split; [done|].
  rewrite (update_contents_parent _ _ _ _ _ _ Hrun), Hparent. simpl.
  case_bool_decide; [|done].
  unfold Gtk.select_row. simpl. by rewrite <- app_assoc.
Qed.

Lemma update_style_keeps_running b w :
  b = false →
  "running_vm" ∈ style_context (row (update_style b w))
  ↔ "running_vm" ∈ style_context (row w).
Proof.
  intros ->. unfold update_style.
  destruct (is_dispvm_template (vm_entry w)), (truthy (parent_vm (vm_entry w)));
    simpl; set_solver.
Qed.

(** Search rows do not show power state: a [SearchVMRow] is built without
    the class [running_vm] even for a running VM, and no call of its
    [update_contents], with whatever flags, adds or removes that class. *)
Theorem search_rows_never_show_power_state :
  (∀ id e, ∃ w, __init__ SearchVMRow_cls id e = Ok w ∧
                "running_vm" ∉ style_context (row w)) ∧
  (∀ ups ulab unet utype w,
     ∃ w', SearchVMRow_update_contents ups ulab unet utype w = Ok w' ∧
           ("running_vm" ∈ style_context (row w')
            ↔ "running_vm" ∈ style_context (row w))).
Proof.
  split.
  - intros id e.
    destruct (init_ok SearchVMRow_cls id e) as (w & Hrun & _ & _ & Hstyle & _).
    exists w. split; [done|]. rewrite Hstyle, update_style_keeps_running by done.
    simpl. set_solver.
  - intros ups ulab unet utype w. unfold SearchVMRow_update_contents.
    destruct (update_contents_ok false ulab false utype w) as (w' & Hrun & _ & Hstyle & _).
    exists w'. split; [done|]. rewrite Hstyle.
    destruct (utype || false); [|done]. by apply update_style_keeps_running.
Qed.

(** [_on_focus]: nothing happens to a row that is not mapped; a mapped row
    is activated and becomes the selected row of its list, and a network
    update that follows re-selects it; a mapped row without a list raises
    [AttributeError]. *)
Theorem focus_selects_mapped_row w :
  _on_focus false w = Ok (w, false) ∧
  (parent w = None → _on_focus true w = Raise (AttributeError "select_row")) ∧
  (∀ lb, parent w = Some lb →
     ∃ w' w'',
       _on_focus true w = Ok (w', true) ∧
       is_selected w' = true ∧
       update_contents false false true false w' = Ok w'' ∧
       is_selected w'' = true ∧
       Gtk.select_row_calls <$> parent w''
       = Some (Gtk.select_row_calls lb
               ++ [Some (row_id (row w)); None; Some (row_id (row w))])).
Proof.
  split; [done|]. split.
  - intros Hparent. unfold _on_focus, parent_call, get_parent. by rewrite Hparent.
  - intros lb Hparent. unfold _on_focus, parent_call, get_parent. rewrite Hparent. simpl.
    set (w' := {| vm_entry := vm_entry w; row := row w;
                  parent := Some (Gtk.select_row (Some (row_id (row w))) lb) |}).
    destruct (update_contents_ok false false true false w') as (w'' & Hrun & _).
    exists w', w''. split; [done|].
    assert (Hsel : is_selected w' = true).
    { unfold is_selected, get_parent. simpl. by rewrite bool_decide_eq_true. }
    split; [done|]. split; [done|].
    pose proof (update_contents_parent _ _ _ _ _ _ Hrun) as Hp. simpl in Hp.
    rewrite bool_decide_true in Hp by done. simpl in Hp.
    unfold is_selected, get_parent. rewrite Hp. simpl.
    rewrite (update_contents_row_id _ _ _ _ _ _ Hrun). simpl.
    split; [by apply bool_decide_eq_true_2|].
    by rewrite <- !app_assoc.
Qed.

Lemma update_style_row b w :
  row (update_style b w) = set_style (style_context (row (update_style b w))) (row w).
Proof.
  destruct w as [e r p]. destruct r. unfold update_style. simpl.
  destruct (is_dispvm_template e), (truthy (parent_vm e)), b; simpl;
    try destruct (String.eqb (power_state e) "Running"); reflexivity.
Qed.

Lemma update_style_twice_style b w :
  style_context (row (update_style b (update_style b w)))
  = style_context (row (update_style b w)).
Proof.
  destruct w as [e r p]. unfold update_style. simpl.
  destruct (is_dispvm_template e) eqn:Ht, (truthy (parent_vm e)) eqn:Hp, b;
    try destruct (String.eqb (power_state e) "Running") eqn:Hr;
    simpl; rewrite ?Ht, ?Hp, ?Hr; simpl; rewrite ?Ht, ?Hp, ?Hr; simpl;
    rewrite ?Ht, ?Hp, ?Hr; simpl; set_solver.
Qed.

(** Field by field, the row that [update_contents] leaves. *)
Lemma update_contents_fields ups ulab unet utype w w' :
  update_contents ups ulab unet utype w = Ok w' →
  cls (row w') = cls (row w) ∧
  mouse (row w') = mouse (row w) ∧
  row_vm_name (row w') = row_vm_name (row w) ∧
  label (row w') = label (row w) ∧
  main_box (row w') = main_box (row w) ∧
  main_box_visible (row w') = true ∧
  label_visible (row w')
  = (if bool_decide ("label" ∈ main_box (row w)) then true else label_visible (row w)) ∧
  dispvm_icon (row w')
  = (if bool_decide ("dispvm_icon" ∈ main_box (row w))
     then Gtk.img_show_all <$> dispvm_icon (row w) else dispvm_icon (row w)) ∧
  icon_img (row w')
  = (let i := if ulab
              then Gtk.set_from_pixbuf (load_icon (vm_icon_name (vm_entry w)) None None)
                     (icon_img (row w))
              else icon_img (row w) in
     if bool_decide ("icon_img" ∈ main_box (row w)) then Gtk.img_show_all i else i).
Proof.
  destruct w as [e r p]. unfold update_contents, is_selected, parent_call, get_parent.
  destruct ulab; simpl.
  all: destruct (utype || ups); simpl; rewrite ?update_style_parent; simpl.
  all: destruct p as [lb|]; simpl; rewrite ?update_style_parent; simpl.
  all: destruct unet; simpl; try destruct (bool_decide (Gtk.selected_row _ = _)); simpl.
  all: intros [= <-]; simpl; try rewrite update_style_row; simpl.
  all: repeat split; reflexivity.
Qed.

Lemma row_ext (r r' : t) :
  cls r = cls r' → row_id r = row_id r' → mouse r = mouse r' →
  row_vm_name r = row_vm_name r' → style_context r = style_context r' →
  icon_img r = icon_img r' → dispvm_icon r = dispvm_icon r' → label r = label r' →
  label_visible r = label_visible r' → main_box r = main_box r' →
  main_box_visible r = main_box_visible r' → r = r'.
Proof. destruct r, r'. simpl. by intros -> -> -> -> -> -> -> -> -> -> ->. Qed.

Lemma img_show_all_set_from_pixbuf p (i : Gtk.Image) :
  Gtk.img_show_all (Gtk.set_from_pixbuf p (Gtk.img_show_all i))
  = Gtk.img_show_all (Gtk.set_from_pixbuf p i).
Proof. destruct i as [? ? ? ? [] ?]; reflexivity. Qed.

Lemma img_show_all_idemp (i : Gtk.Image) :
  Gtk.img_show_all (Gtk.img_show_all i) = Gtk.img_show_all i.
Proof. destruct i as [? ? ? ? [] ?]; reflexivity. Qed.

(** A notification delivered twice does no harm to the row: a second
    [update_contents] with the same flags, the entry not having changed in
    between, leaves the widget exactly as the first one left it.  Both calls
    return. *)
Theorem update_contents_twice_is_once ups ulab unet utype w :
  ∃ w1 w2,
    update_contents ups ulab unet utype w = Ok w1 ∧
    update_contents ups ulab unet utype w1 = Ok w2 ∧
    vm_entry w2 = vm_entry w1 ∧
    row w2 = row w1.
Proof.
  destruct (update_contents_ok ups ulab unet utype w)
    as (w1 & Hrun1 & He1 & Hs1 & _).
  destruct (update_contents_ok ups ulab unet utype w1)
    as (w2 & Hrun2 & He2 & Hs2 & _).
  exists w1, w2. split; [done|]. split; [done|]. split; [done|].
  destruct (update_contents_fields _ _ _ _ _ _ Hrun1)
    as (Hc1 & Hm1 & Hn1 & Hl1 & Hb1 & Hbv1 & Hlv1 & Hd1 & Hi1).
  destruct (update_contents_fields _ _ _ _ _ _ Hrun2)
    as (Hc2 & Hm2 & Hn2 & Hl2 & Hb2 & Hbv2 & Hlv2 & Hd2 & Hi2).
  apply row_ext; try congruence.
  - rewrite (update_contents_row_id _ _ _ _ _ _ Hrun2). done.
  - rewrite Hs2. destruct (utype || ups); [|done].
    rewrite Hs1. rewrite <- (update_style_twice_style ups w).
    apply update_style_style_ext.
    + by rewrite update_style_vm_entry.
    + exact Hs1.
  - rewrite Hi2, Hb1, Hi1, He1. cbv zeta.
    destruct ulab, (bool_decide ("icon_img" ∈ main_box (row w)));
      by rewrite ?img_show_all_set_from_pixbuf, ?img_show_all_idemp.
  - rewrite Hd2, Hb1, Hd1.
    destruct (bool_decide ("dispvm_icon" ∈ main_box (row w))); [|done].
    destruct (dispvm_icon (row w)); simpl; by rewrite ?img_show_all_idemp.
  - rewrite Hlv2, Hb1, Hlv1. by destruct (bool_decide ("label" ∈ main_box (row w))).
Qed.

End RowsInLists.

Lemma type_or_power_update_clears_selection_witness :
  ∃ w', @VMRow.update_contents Examples.icons_by_name true false true false
          {| VMRow.vm_entry := Examples.disp1;
             VMRow.row := @VMRow.HoverListBox__init__ Examples.icons_by_name VMRow.VMRow_cls 4;
             VMRow.parent :=
               Some {| Gtk.selected_row := Some 4%nat; Gtk.sort_invalidations := 0;
                       Gtk.filter_invalidations := 0; Gtk.select_row_calls := [] |} |}
        = Ok w' ∧
        @VMRow.is_selected Examples.icons_by_name w' = false.
Proof.
  destruct (@type_or_power_update_clears_selection Examples.icons_by_name
              true false true false
              {| VMRow.vm_entry := Examples.disp1;
                    VMRow.row :=
                      @VMRow.HoverListBox__init__ Examples.icons_by_name VMRow.VMRow_cls 4;
                    VMRow.parent :=
                      Some {| Gtk.selected_row := Some 4%nat; Gtk.sort_invalidations := 0;
                              Gtk.filter_invalidations := 0;
                              Gtk.select_row_calls := [] |} |} _ eq_refl eq_refl) as (w' & Hrun & _ & Hsel).
  exists w'. split; [exact Hrun|exact Hsel].
Defined.

Lemma network_update_reselects_selected_row_witness :
  ∃ w', @VMRow.update_contents Examples.icons_by_name false false true false
          {| VMRow.vm_entry := Examples.disp1;
             VMRow.row := @VMRow.HoverListBox__init__ Examples.icons_by_name VMRow.VMRow_cls 4;
             VMRow.parent :=
               Some {| Gtk.selected_row := Some 4%nat; Gtk.sort_invalidations := 0;
                       Gtk.filter_invalidations := 0; Gtk.select_row_calls := [] |} |}
        = Ok w' ∧
        Gtk.select_row_calls <$> VMRow.parent w' = Some [None; Some 4%nat].
Proof.
  destruct (@network_update_reselects_selected_row Examples.icons_by_name false
              {| VMRow.vm_entry := Examples.disp1;
                    VMRow.row :=
                      @VMRow.HoverListBox__init__ Examples.icons_by_name VMRow.VMRow_cls 4;
                    VMRow.parent :=
                      Some {| Gtk.selected_row := Some 4%nat; Gtk.sort_invalidations := 0;
                              Gtk.filter_invalidations := 0;
                              Gtk.select_row_calls := [] |} |} _ eq_refl) as (w' & Hrun & Hparent).
  exists w'. split; [exact Hrun|]. rewrite Hparent. reflexivity.
Defined.

Lemma focus_selects_mapped_row_witness :
  let w := {| VMRow.vm_entry := Examples.work;
              VMRow.row := @VMRow.HoverListBox__init__ Examples.icons_by_name VMRow.VMRow_cls 2;
              VMRow.parent :=
                Some {| Gtk.selected_row := None; Gtk.sort_invalidations := 0;
                        Gtk.filter_invalidations := 0; Gtk.select_row_calls := [] |} |} in
  ∃ w', @VMRow._on_focus Examples.icons_by_name true w = Ok (w', true) ∧
        @VMRow.is_selected Examples.icons_by_name w' = true.
Proof.
  intros w.
  destruct (proj2 (proj2 (@focus_selects_mapped_row Examples.icons_by_name w)) _ eq_refl)
    as (w' & w'' & Hfocus & Hsel & _).
  exists w'. split; [exact Hfocus|exact Hsel].
Defined.

(** * Further properties of the application *)

Section Signals.
Import AppMenu.

Lemma getitem_get d k :
  getitem d k = match get d k with Some v => Ok v | None => Raise (KeyError k) end.
Proof. unfold getitem, get. by destruct (list_find _ d) as [[? [? ?]]|]. Qed.

Lemma quiet_step_refl w : set_up w → quiet_step w w.
Proof.
  intros Hup. split; [done|]. split; [apply same_setup_refl|]. split; [done|].
  exists []. rewrite app_nil_r. split; [done|]. intros _. split; [|done].
  apply not_elem_of_nil.
Qed.

Lemma quiet_step_trans w1 w2 w3 : quiet_step w1 w2 → quiet_step w2 w3 → quiet_step w1 w3.
Proof.
  intros (_ & Hs12 & Hk12 & l1 & Hl1 & Hq1) (Hup & Hs23 & Hk23 & l2 & Hl2 & Hq2).
  split; [done|]. split; [by eapply same_setup_trans|]. split; [auto|].
  exists (l1 ++ l2). split; [by rewrite Hl2, Hl1, app_assoc|].
  intros Hk. destruct (Hq1 Hk) as [Hh1 Hv1]. destruct (Hq2 (Hk12 Hk)) as [Hh2 Hv2].
  split; [|auto]. rewrite elem_of_app. tauto.
Qed.

(** A change that keeps the application object but for the page of the
    notebook, and adds to the log effects other than [hide]. *)
Lemma quiet_step_emit w e : set_up w → e ≠ hide → quiet_step w (emit e w).
Proof.
  intros Hup He. split; [exact Hup|]. split; [exact (same_setup_refl w)|]. split; [done|].
  exists [e]. split; [done|]. intros _. split; [|done].
  rewrite elem_of_cons, elem_of_nil. naive_solver.
Qed.

Lemma quiet_step_set_page w nb n :
  set_up w → main_notebook (app w) = Some nb →
  quiet_step w (notebook_set_current_page n nb w).
Proof.
  intros (Hp & Hw & Hn & Hh) Hnb.
  split; [by repeat split|].
  split; [repeat split; simpl; try done; by rewrite Hnb|]. split; [done|].
  exists [set_current_page n]. split; [done|]. intros _. split; [|done].
  rewrite elem_of_cons, elem_of_nil. naive_solver.
Qed.

Lemma quiet_step_present w win :
  set_up w → main_window (app w) = Some win →
  quiet_step w (window_present win w).
Proof.
  intros (Hp & Hw & Hn & Hh) Hwin.
  split; [by repeat split|].
  split; [repeat split; simpl; try done; by rewrite Hwin|]. split; [done|].
  exists [present]. split; [done|]. intros _. split; [|done].
  rewrite elem_of_cons, elem_of_nil. naive_solver.
Qed.

Lemma quiet_step_hide w win :
  set_up w → main_window (app w) = Some win → keep_visible (app w) = false →
  quiet_step w (window_hide win w).
Proof.
  intros (Hp & Hw & Hn & Hh) Hwin Hk.
  split; [by repeat split|].
  split; [repeat split; simpl; try done; by rewrite Hwin|]. split; [done|].
  exists [hide]. split; [done|]. intros Hk'. congruence.
Qed.

Lemma hide_menu_quiet w :
  set_up w →
  ∃ w', hide_menu w = Ok w' ∧ quiet_step w w' ∧ same_options w w' ∧ menus w' = menus w.
Proof.
  intros Hup. pose proof Hup as (Hp & [win Hwin] & Hn & [page Hpage]).
  assert (Hitem : getitem (handlers (app w)) "search_page" = Ok page).
  { by rewrite getitem_get, Hpage. }
  rewrite (hide_menu_ok w page win Hitem Hwin).
  pose proof (quiet_step_emit w (initialize_page page) Hup ltac:(done)) as Hq1.
  destruct (keep_visible (app w)) eqn:Hk; eexists; (split; [reflexivity|]).
  - split; [exact Hq1|]. by repeat split.
  - split; [|by repeat split].
    eapply quiet_step_trans; [exact Hq1|].
    apply quiet_step_hide; [by destruct Hq1|done..].
Qed.

Lemma do_command_line_quiet env o w :
  set_up w →
  ∃ w', do_command_line env o w = Ok (w', returned) ∧
        quiet_step w w' ∧
        menus w' = menus w ∧
        keep_visible (app w') = keep_visible (app w) || opt_keep_visible o ∧
        start_in_background (app w') = start_in_background (app w) || opt_background o ∧
        initial_page (app w') = default (initial_page (app w)) (opt_page o).
Proof.
  intros Hup. pose proof Hup as (Hp & [win Hwin] & [nb Hnb] & Hh).
  unfold do_command_line.
  erewrite (do_activate_again env _ nb win); [|done..].
  eexists. split; [reflexivity|]. simpl.
  split; [|repeat split; by destruct (opt_keep_visible o), (opt_background o),
             (keep_visible (app w)), (start_in_background (app w))].
  split; [repeat split; simpl; try done; by eexists|].
  split; [repeat split; simpl; try done; by rewrite ?Hwin, ?Hnb|].
  split; [intros ->; by destruct (opt_keep_visible o)|].
  eexists. split; [reflexivity|]. intros Hk. rewrite Hk.
  destruct (opt_keep_visible o); rewrite andb_false_r; simpl.
  all: split; [|by rewrite Hwin].
  all: rewrite !elem_of_cons, elem_of_nil; naive_solver.
Qed.

Lemma key_pressed_quiet k p :
  set_up (world p) →
  (_key_pressed k p).2 = false ∧
  spawned (_key_pressed k p).1 = spawned p ∧
  quiet_step (world p) (world (_key_pressed k p).1) ∧
  same_options (world p) (world (_key_pressed k p).1) ∧
  menus (world (_key_pressed k p).1) = menus (world p).
Proof.
  intros Hup. pose proof Hup as (Hp & Hw & [nb Hnb] & Hh).
  pose proof (quiet_step_refl _ Hup) as Hrefl.
  assert (Hsame : ∀ g,
    quiet_step (world p)
      (world {| world := world p; spawned := spawned p; search_entry_grabs := g |}) ∧
    same_options (world p)
      (world {| world := world p; spawned := spawned p; search_entry_grabs := g |}))
    by (intros g; split; [exact Hrefl|by repeat split]).
  unfold _key_pressed.
  destruct (is_navigation k); simpl;
    [split; [done|]; split; [done|]; split; [exact Hrefl|]; by repeat split|].
  destruct (get (handlers (app (world p))) "search_page") as [page|];
    [|split; [done|]; split; [done|]; split; [exact Hrefl|]; by repeat split].
  destruct (objects (world p) !! page) as [[]|];
    try (split; [done|]; split; [done|]; split; [exact Hrefl|]; by repeat split).
  simpl. rewrite Hnb. case_bool_decide; simpl;
    [|split; [done|]; split; [done|]; split; [exact Hrefl|]; by repeat split].
  split; [done|]. split; [done|]. split; [by apply quiet_step_set_page|]. by repeat split.
Qed.

Lemma handle_quiet env s p :
  set_up (world p) →
  ∃ p', handle env s p = Ok p' ∧
        quiet_step (world p) (world p') ∧
        keep_visible (app (world p'))
        = keep_visible (app (world p))
          || (if s is command_line o then opt_keep_visible o else false) ∧
        start_in_background (app (world p'))
        = start_in_background (app (world p))
          || (if s is command_line o then opt_background o else false) ∧
        initial_page (app (world p'))
        = default (initial_page (app (world p)))
            (if s is command_line o then opt_page o else None).
Proof.
  intros Hup. destruct s as [o| |k|name| |vm_name|e]; simpl.
  - destruct (do_command_line_quiet env o (world p) Hup) as (w' & -> & Hq & _ & Ho).
    simpl. by eexists.
  - unfold _focus_out.
    destruct (SelfAwareMenu.OPEN_MENUS (menus (world p)) <=? 0).
    + destruct (hide_menu_quiet _ Hup) as (w' & -> & Hq & (Hk & Hi & Hb) & _). simpl.
      eexists. split; [reflexivity|]. simpl. rewrite Hk, Hi, Hb, !orb_false_r. done.
    + simpl. eexists. split; [reflexivity|]. simpl. rewrite !orb_false_r.
      split; [by apply quiet_step_refl|done].
  - assert (Hpress : ∃ w', _key_press k (world p) = Ok w' ∧ quiet_step (world p) w' ∧
                           same_options (world p) w').
    { destruct k; simpl.
      - destruct (hide_menu_quiet _ Hup) as (w' & -> & Hq & Ho & _). by exists w'.
      - exists (world p). split; [done|]. split; [by apply quiet_step_refl|done]. }
    destruct Hpress as (w' & -> & Hq & (Hk & Hi & Hb)). simpl.
    destruct (key_pressed_quiet k (with_world w' p)) as (_ & _ & Hq' & (Hk' & Hi' & Hb') & _).
    { by destruct Hq. }
    eexists. split; [reflexivity|]. simpl in *.
    split; [by eapply quiet_step_trans|].
    rewrite Hk', Hi', Hb', Hk, Hi, Hb, !orb_false_r. done.
  - unfold _handle_page_switch.
    destruct (get (handlers (app (world p))) name);
      (eexists; split; [reflexivity|]; simpl; rewrite !orb_false_r; split; [|done]).
    + by apply quiet_step_emit.
    + by apply quiet_step_refl.
  - eexists. split; [reflexivity|]. simpl. rewrite !orb_false_r.
    split; [by apply quiet_step_refl|done].
  - unfold run_app. simpl.
    destruct (hide_menu_quiet _ Hup) as (w' & -> & Hq & (Hk & Hi & Hb) & _). simpl.
    eexists. split; [reflexivity|]. simpl. rewrite Hk, Hi, Hb, !orb_false_r. done.
  - eexists. split; [reflexivity|]. simpl. rewrite !orb_false_r.
    split; [|done].
    destruct Hup as (Hp & Hw & Hn & Hh).
    split; [by repeat split|]. split; [by repeat split|]. split; [done|].
    exists []. rewrite app_nil_r. split; [done|]. intros _. split; [|done].
    apply not_elem_of_nil.
Qed.

(** Any run of signals on an application that is set up. *)
Lemma run_quiet env ss : ∀ p,
  set_up (world p) →
  ∃ p', run env ss p = Ok p' ∧
        quiet_step (world p) (world p') ∧
        keep_visible (app (world p'))
        = keep_visible (app (world p)) || asks_keep_visible ss ∧
        start_in_background (app (world p'))
        = start_in_background (app (world p)) || asks_background ss ∧
        initial_page (app (world p'))
        = default (initial_page (app (world p))) (asked_page ss).
Proof.
  induction ss as [|s ss IH]; intros p Hup.
  - exists p. simpl. rewrite !orb_false_r. split; [done|].
    split; [by apply quiet_step_refl|done].
  - simpl. destruct (handle_quiet env s p Hup) as (p1 & -> & Hq1 & Hk1 & Hb1 & Hi1).
    simpl. destruct (IH p1) as (p' & Hrun & Hq & Hk & Hb & Hi); [by destruct Hq1|].
    exists p'. split; [done|]. split; [by eapply quiet_step_trans|].
    rewrite Hk, Hb, Hi, Hk1, Hb1, Hi1, <- !orb_assoc.
    repeat split. destruct (asked_page ss); [done|]. simpl. by destruct s.
Qed.

(** The first activation leaves the application set up. *)
Lemma first_activation_sets_up env w0 :
  primary (app w0) = false →
  glade_complete env →
  ∃ w1 c, do_activate env w0 = Ok (w1, c) ∧
          set_up w1 ∧
          keep_visible (app w1) = keep_visible (app w0) ∧
          objects w1
          = objects w0 ++
            [Builder; DesktopFileManager (qapp (app w0));
             VMManager (qapp (app w0)) (dispatcher (app w0));
             SearchPage (length (objects w0) + 2) (length (objects w0))
               (length (objects w0) + 1);
             AppPage (length (objects w0) + 2) (length (objects w0))
               (length (objects w0) + 1);
             FavoritesPage (qapp (app w0)) (length (objects w0))
               (length (objects w0) + 1) (dispatcher (app w0)) (length (objects w0) + 2);
             SettingsPage (qapp (app w0)) (length (objects w0))
               (length (objects w0) + 1) (dispatcher (app w0))].
Proof.
  intros Hprimary Hglade.
  destruct (do_activate_first env w0 Hprimary Hglade)
    as (ws & w1 & Hsetup & Hrun & Hp1 & Hk & Hsame & _ & Hnb & Hwin & _).
  rewrite (perform_setup_ok env w0 Hglade) in Hsetup. injection Hsetup as <-.
  destruct Hsame as (Hobj & _ & _ & _ & Hhandlers & _). simpl in Hobj, Hhandlers.
  eexists w1, _. split; [exact Hrun|]. split; [|split; [done|done]].
  split; [done|]. split; [done|]. split; [done|].
  rewrite Hhandlers. by eexists.
Qed.


(** With [keep_visible] on, nothing the application handles hides the
    window: no run of signals adds a [hide] call, the option stays on, and a
    window that is visible stays visible. *)
Theorem keep_visible_keeps_the_window env ss p :
  set_up (world p) →
  keep_visible (app (world p)) = true →
  ∃ p', run env ss p = Ok p' ∧
        keep_visible (app (world p')) = true ∧
        (hide ∉ added (world p) (world p')) ∧
        (win_visible <$> main_window (app (world p)) = Some true →
         win_visible <$> main_window (app (world p')) = Some true).
Proof.
  intros Hup Hkeep.
  destruct (run_quiet env ss p Hup)
    as (p' & Hrun & (_ & _ & Hk & l & Hl & Hq) & _).
  destruct (Hq Hkeep) as [Hhide Hvisible].
  exists p'. split; [done|]. split; [auto|]. split; [|done].
  unfold added. by rewrite Hl, drop_app_length.
Qed.

(** The options of the command lines are sticky: after any run of signals,
    [keep_visible] is on exactly if it was on before or some command line
    asked for it, likewise [start_in_background], and the initial page is the
    last one a command line asked for, or the one before.  No later command
    line without an option takes that option back. *)
Theorem command_line_options_are_sticky env ss p :
  set_up (world p) →
  ∃ p', run env ss p = Ok p' ∧
        keep_visible (app (world p'))
        = keep_visible (app (world p)) || asks_keep_visible ss ∧
        start_in_background (app (world p'))
        = start_in_background (app (world p)) || asks_background ss ∧
        initial_page (app (world p'))
        = default (initial_page (app (world p))) (asked_page ss).
Proof.
  intros Hup. destruct (run_quiet env ss p Hup) as (p' & Hrun & _ & Hopts).
  by exists p'.
Qed.

(** Without [keep_visible], activations alone switch the window back and
    forth: after an even number of them it is as visible as before, after an
    odd number it is the other way round. *)
Theorem activations_alternate env n : ∀ w,
  set_up w →
  keep_visible (app w) = false →
  ∃ wn, activations env n w = Ok wn ∧
        win_visible <$> main_window (app wn)
        = (λ win, if Nat.even n then win_visible win else negb (win_visible win))
            <$> main_window (app w).
Proof.
  induction n as [|n IH]; intros w Hup Hkeep.
  - exists w. split; [done|]. simpl. by destruct (main_window (app w)).
  - pose proof Hup as (Hp & [win Hwin] & [nb Hnb] & Hh).
    rewrite Nat.even_succ, <- Nat.negb_even.
    cbn [activations]. rewrite (do_activate_again env w nb win) by done. simpl.
    match goal with
    | |- context [activations env n ?w'] =>
        destruct (IH w') as (wn & Hrun & Hvis);
          [split; [done|]; split; [by eexists|]; split; [by eexists|done]|done|]
    end.
    exists wn. split; [done|].
    rewrite Hvis, Hwin. simpl. rewrite Hkeep, andb_true_r.
    by destruct (Nat.even n), (win_visible win).
Qed.

(** Started in the background, the menu stays hidden: the first activation
    shows the window exactly when [start_in_background] is off.  When it is
    on, the activation after it presents the window, whatever
    [keep_visible] says. *)
Theorem background_start_shows_nothing env w0 :
  primary (app w0) = false →
  glade_complete env →
  ∃ w1 c,
    do_activate env w0 = Ok (w1, c) ∧
    win_visible <$> main_window (app w1) = Some (negb (start_in_background (app w0))) ∧
    (show_all ∈ added w0 w1 ↔ start_in_background (app w0) = false) ∧
    (start_in_background (app w0) = true →
     ∃ w2, do_activate env w1 = Ok (w2, returned) ∧
           win_visible <$> main_window (app w2) = Some true ∧
           added w1 w2 = [set_current_page (initial_page (app w0)); present]).
Proof.
  intros Hprimary Hglade. pose proof (perform_setup_ok env w0 Hglade) as Hsetup.
  simpl in Hsetup. unfold do_activate at 1. rewrite Hprimary, Hsetup.
  destruct (start_in_background (app w0)) eqn:Hbackground;
    destruct (9 * screen_height env <? 10 * allocated_height env) eqn:Hheight;
    destruct (listener env) eqn:Hlistener;
    simpl; rewrite ?Hbackground, ?Hheight; simpl;
    (eexists _, _; split; [reflexivity|]; simpl; split; [reflexivity|]).
  all: unfold added; simpl; rewrite <- ?app_assoc; rewrite drop_app_length; simpl.
  all: split; [split; [try (rewrite !elem_of_cons, elem_of_nil; naive_solver)
                      |try done; intros _; rewrite !elem_of_cons; tauto]|].
  all: try done.
  all: intros _; erewrite do_activate_again; [|reflexivity..].
  all: eexists; split; [reflexivity|]; simpl; split; [reflexivity|].
  all: rewrite <- ?app_assoc; simpl.
  all: by rewrite length_app, drop_app_add.
Qed.


(** A missing handler for the search page: [hide_menu] looks it up with
    [self.handlers['search_page']] and raises [KeyError], and so do the
    Escape key and a focus-out without open menus; the handlers that use
    [self.handlers.get] take the absence as nothing to do. *)
Theorem missing_search_page_handler w :
  get (handlers (app w)) "search_page" = None →
  hide_menu w = Raise (KeyError "search_page") ∧
  _key_press KEY_Escape w = Raise (KeyError "search_page") ∧
  (SelfAwareMenu.OPEN_MENUS (menus w) ≤ 0 → _focus_out w = Raise (KeyError "search_page")) ∧
  _handle_page_switch "search_page" w = w ∧
  (∀ k sp g, _key_pressed k {| world := w; spawned := sp; search_entry_grabs := g |}
             = ({| world := w; spawned := sp; search_entry_grabs := g |}, false)).
Proof.
  intros Hnone.
  assert (Hhide : hide_menu w = Raise (KeyError "search_page")).
  { unfold hide_menu. by rewrite getitem_get, Hnone. }
  split; [done|]. split; [done|]. split; [|split].
  - intros Hmenus. unfold _focus_out.
    destruct (Z.leb_spec (SelfAwareMenu.OPEN_MENUS (menus w)) 0); [done|lia].
  - unfold _handle_page_switch. by rewrite Hnone.
  - intros k sp g. unfold _key_pressed. simpl. rewrite Hnone. by destruct (is_navigation k).
Qed.


End Signals.


Lemma keep_visible_keeps_the_window_witness :
  ∃ w1 p',
    AppMenu.do_command_line (Examples.desktop asyncio.PENDING) Examples.keep_visible_option
      (AppMenu.start 0 1) = Ok (w1, AppMenu.in_event_loop) ∧
    AppMenu.run (Examples.desktop asyncio.PENDING)
      [AppMenu.focus_out_event; AppMenu.key_press_event AppMenu.KEY_Escape]
      {| AppMenu.world := w1; AppMenu.spawned := []; AppMenu.search_entry_grabs := 0 |}
    = Ok p' ∧
    (AppMenu.hide ∉ AppMenu.added w1 (AppMenu.world p')).
Proof.
  eexists. 
  assert (Hfirst : ∀ w1 c,
    AppMenu.do_command_line (Examples.desktop asyncio.PENDING) Examples.keep_visible_option
      (AppMenu.start 0 1) = Ok (w1, c) →
    AppMenu.set_up w1 ∧ AppMenu.keep_visible (AppMenu.app w1) = true).
  { intros w1 c Hrun. vm_compute in Hrun. injection Hrun as <- <-.
    split; [|reflexivity]. split; [reflexivity|]. split; [by eexists|].
    split; [by eexists|by eexists]. }
  match goal with
  | |- ∃ p', ?first = Ok (?w, _) ∧ _ =>
      assert (Hrun : first = Ok (w, AppMenu.in_event_loop)) by (vm_compute; reflexivity)
  end.
  destruct (Hfirst _ _ Hrun) as [Hup Hkeep].
  edestruct (keep_visible_keeps_the_window (Examples.desktop asyncio.PENDING)
               [AppMenu.focus_out_event; AppMenu.key_press_event AppMenu.KEY_Escape]
               {| AppMenu.world := _; AppMenu.spawned := [];
                  AppMenu.search_entry_grabs := 0 |} Hup Hkeep)
    as (p' & Hrun' & _ & Hhide & _).
  exists p'. split; [exact Hrun|]. split; [exact Hrun'|exact Hhide].
Defined.

Lemma command_line_options_are_sticky_witness :
  ∃ w1 c p',
    AppMenu.do_activate (Examples.desktop asyncio.PENDING) (AppMenu.start 0 1) = Ok (w1, c) ∧
    AppMenu.run (Examples.desktop asyncio.PENDING)
      [AppMenu.command_line Examples.keep_visible_option;
       AppMenu.command_line
         {| AppMenu.opt_keep_visible := false; AppMenu.opt_page := Some 2;
            AppMenu.opt_background := false |}]
      {| AppMenu.world := w1; AppMenu.spawned := []; AppMenu.search_entry_grabs := 0 |}
    = Ok p' ∧
    AppMenu.keep_visible (AppMenu.app (AppMenu.world p')) = true ∧
    AppMenu.initial_page (AppMenu.app (AppMenu.world p')) = 2.
Proof.
  destruct (first_activation_sets_up (Examples.desktop asyncio.PENDING) (AppMenu.start 0 1))
    as (w1 & c & Hfirst & Hup & Hkeep & _).
  - reflexivity.
  - unfold AppMenu.glade_complete. simpl. set_solver.
  - destruct (command_line_options_are_sticky (Examples.desktop asyncio.PENDING)
                [AppMenu.command_line Examples.keep_visible_option;
                 AppMenu.command_line
                   {| AppMenu.opt_keep_visible := false; AppMenu.opt_page := Some 2;
                      AppMenu.opt_background := false |}]
                {| AppMenu.world := w1; AppMenu.spawned := [];
                   AppMenu.search_entry_grabs := 0 |} Hup)
      as (p' & Hrun & Hk & _ & Hpage).
    exists w1, c, p'. split; [exact Hfirst|]. split; [exact Hrun|].
    split; [rewrite Hk; apply orb_true_r|exact Hpage].
Defined.

Lemma activations_alternate_witness :
  ∃ w1 c w4,
    AppMenu.do_activate (Examples.desktop asyncio.PENDING) (AppMenu.start 0 1) = Ok (w1, c) ∧
    AppMenu.activations (Examples.desktop asyncio.PENDING) 3 w1 = Ok w4 ∧
    AppMenu.win_visible <$> AppMenu.main_window (AppMenu.app w4)
    = negb <$> (AppMenu.win_visible <$> AppMenu.main_window (AppMenu.app w1)).
Proof.
  destruct (first_activation_sets_up (Examples.desktop asyncio.PENDING) (AppMenu.start 0 1))
    as (w1 & c & Hfirst & Hup & Hkeep & _).
  - reflexivity.
  - unfold AppMenu.glade_complete. simpl. set_solver.
  - destruct (activations_alternate (Examples.desktop asyncio.PENDING) 3 w1 Hup Hkeep)
      as (w4 & Hrun & Hvisible).
    exists w1, c, w4. split; [exact Hfirst|]. split; [exact Hrun|].
    rewrite Hvisible. simpl. by destruct (AppMenu.main_window (AppMenu.app w1)).
Defined.

Lemma background_start_shows_nothing_witness :
  ∃ w1 c w2,
    AppMenu.do_activate (Examples.desktop asyncio.PENDING) Examples.background_start
    = Ok (w1, c) ∧
    AppMenu.win_visible <$> AppMenu.main_window (AppMenu.app w1) = Some false ∧
    AppMenu.do_activate (Examples.desktop asyncio.PENDING) w1 = Ok (w2, AppMenu.returned) ∧
    AppMenu.win_visible <$> AppMenu.main_window (AppMenu.app w2) = Some true.
Proof.
  destruct (background_start_shows_nothing (Examples.desktop asyncio.PENDING)
              Examples.background_start)
    as (w1 & c & Hfirst & Hhidden & _ & Hnext).
  - reflexivity.
  - unfold AppMenu.glade_complete. simpl. set_solver.
  - destruct (Hnext eq_refl) as (w2 & Hsecond & Hshown & _).
    exists w1, c, w2. split; [exact Hfirst|]. split; [exact Hhidden|].
    split; [exact Hsecond|exact Hshown].
Defined.


Lemma missing_search_page_handler_witness :
  AppMenu.hide_menu (AppMenu.start 0 1) = Raise (KeyError "search_page").
Proof.
  exact (proj1 (missing_search_page_handler (AppMenu.start 0 1) eq_refl)).
Defined.

